(** * data_wrangling: column typing, encoding and feature assembly

    A shallow embedding of [pages/modules_for_pages/data_wrangling.py].
    The functions of the module are translated one by one, with the same
    names.  Python exceptions become the [Err] side of a result type, the
    in-place mutation of the data frame by [cast_dtype] becomes explicit
    state passing, and the pandas / scikit-learn primitives the module calls
    are modelled by their documented contract (shapes, category order,
    parameter validation); the numbers they compute are left abstract. *)

From Stdlib Require Import List String Ascii ZArith Lia Bool Arith.
From Stdlib Require Import Sorting.Sorted Sorting.Permutation Numbers.DecimalString.
Import ListNotations.

Local Open Scope string_scope.
Local Open Scope list_scope.

Set Implicit Arguments.

(** ** Python values: exceptions, results, dictionaries *)

(** The exceptions the module can let escape. *)
Inductive exn : Type :=
| KeyError           (* a missing dictionary key or column label *)
| AttributeError     (* [.dtype] of a sub-frame *)
| ValueError         (* raised by pandas / scikit-learn validation *)
| UnboundLocalError  (* a local variable read before any branch bound it *)
| TypeError.         (* iterating over [None] *)

Inductive result (A : Type) : Type :=
| Ok (a : A)
| Err (e : exn).

Arguments Ok {A} a.
Arguments Err {A} e.

Definition bind {A B : Type} (r : result A) (k : A -> result B) : result B :=
  match r with
  | Ok a => k a
  | Err e => Err e
  end.

Declare Scope py_scope.
Delimit Scope py_scope with py.
Notation "x <- r ;; k" := (bind r (fun x => k))
  (at level 100, r at next level, right associativity) : py_scope.
Notation "' p <- r ;; k" := (bind r (fun p => k))
  (at level 100, p pattern, r at next level, right associativity) : py_scope.
Local Open Scope py_scope.

Definition is_err {A : Type} (r : result A) : Prop :=
  exists e, r = Err e.

(** A list comprehension whose element expression may raise: the first
    exception aborts the comprehension. *)
Fixpoint comprehension {A B : Type} (f : A -> result B) (l : list A)
  : result (list B) :=
  match l with
  | [] => Ok []
  | a :: l' =>
      b <- f a ;;
      bs <- comprehension f l' ;;
      Ok (b :: bs)
  end.

(** [[a for a in l if p a]], where the condition may raise. *)
Fixpoint comprehension_if {A : Type} (p : A -> result bool) (l : list A)
  : result (list A) :=
  match l with
  | [] => Ok []
  | a :: l' =>
      keep <- p a ;;
      rest <- comprehension_if p l' ;;
      Ok (if keep then a :: rest else rest)
  end.

(** A [dict] with string keys, in insertion order (the order [keys()]
    iterates in). *)
Definition dict (B : Type) : Type := list (string * B).

Fixpoint dict_find {B : Type} (d : dict B) (k : string) : option B :=
  match d with
  | [] => None
  | (k', v) :: d' => if String.eqb k' k then Some v else dict_find d' k
  end.

(** [d[k]] *)
Definition dict_get {B : Type} (d : dict B) (k : string) : result B :=
  match dict_find d k with
  | Some v => Ok v
  | None => Err KeyError
  end.

Definition keys {B : Type} (d : dict B) : list string := map fst d.

(** Python's [==] on dictionaries compares the bindings, not their order. *)
Definition dict_eq {B : Type} (d1 d2 : dict B) : Prop :=
  forall k, dict_find d1 k = dict_find d2 k.

(** ** Strings *)

(** [s.startswith(p)] *)
Fixpoint starts_with (p s : string) : bool :=
  match p, s with
  | EmptyString, _ => true
  | String a p', String b s' => Ascii.eqb a b && starts_with p' s'
  | String _ _, EmptyString => false
  end.

(** [sub in s] for two [str] operands: [sub] occurs in [s] as a contiguous
    substring. *)
Fixpoint str_in (sub s : string) : bool :=
  starts_with sub s ||
  match s with
  | EmptyString => false
  | String _ s' => str_in sub s'
  end.

(** The declarative reading of "contiguous substring". *)
Definition substring_of (sub s : string) : Prop :=
  exists pre post, s = (pre ++ sub ++ post)%string.

(** [str(n)] for a non-negative [int]. *)
Definition str_of_nat (n : nat) : string :=
  NilEmpty.string_of_uint (Nat.to_uint n).

(** ** Cells *)

(** What the module needs of the values held in a column: equality and the
    order the encoders sort categories by, [str()], and whether the value is
    a float with a fractional part (what makes scikit-learn's
    [type_of_target] answer "continuous"). *)
Class Cell (V : Type) : Type := {
  cell_eqb : V -> V -> bool;
  cell_leb : V -> V -> bool;
  cell_str : V -> string;
  cell_fractional : V -> bool;
  cell_eqb_spec : forall a b, cell_eqb a b = true <-> a = b;
  cell_leb_total : forall a b, cell_leb a b = true \/ cell_leb b a = true
}.

(** Text cells, as in an [object] column read from a CSV file. *)
#[export, refine] Instance string_cell : Cell string := {
  cell_eqb := String.eqb;
  cell_leb := String.leb;
  cell_str := fun s => s;
  cell_fractional := fun _ => false
}.
Proof.
  - intros a b. apply String.eqb_eq.
  - intros a b. apply String.leb_total.
Defined.

(** ** Data frames *)

(** A column: its storage type, printed as [str(dtype)], and its values. *)
Record Series (V : Type) : Type := {
  dtype : string;
  values : list V
}.

(** A [pd.DataFrame]: labelled columns, in column order.  Rows carry the
    default positional index, as in a frame read from an uploaded file.
    pandas allows a label to occur more than once. *)
Definition DataFrame (V : Type) : Type := list (string * Series V).

Definition columns {A : Type} (df : list (string * A)) : list string :=
  map fst df.

(** [df.dtypes], printed *)
Definition dtypes {V : Type} (df : DataFrame V) : list string :=
  map (fun c => dtype (snd c)) df.

(** What [df[key]] evaluates to. *)
Inductive selection (V : Type) : Type :=
| Missing                        (* KeyError *)
| One (s : Series V)             (* a Series *)
| Many (l : list (Series V)).    (* a sub-frame: the label is duplicated *)

Arguments Missing {V}.

Definition labelled {A : Type} (key : string) (df : list (string * A))
  : list (string * A) :=
  filter (fun c => String.eqb (fst c) key) df.

Definition select {V : Type} (df : DataFrame V) (key : string) : selection V :=
  match labelled key df with
  | [] => Missing
  | [c] => One (snd c)
  | cs => Many (map snd cs)
  end.

(** [str(df[key].dtype)]; a sub-frame has no [dtype] attribute. *)
Definition dtype_of {V : Type} (df : DataFrame V) (key : string) : result string :=
  match select df key with
  | Missing => Err KeyError
  | One s => Ok (dtype s)
  | Many _ => Err AttributeError
  end.

(** [df[key] = new] where [new] holds as many columns as [key] labels:
    the columns labelled [key] are replaced, in place and in order. *)
Fixpoint setitem {V : Type} (df : DataFrame V) (key : string)
  (new : list (Series V)) : DataFrame V :=
  match df with
  | [] => []
  | (k, s) :: df' =>
      if String.eqb k key then
        match new with
        | s' :: new' => (k, s') :: setitem df' key new'
        | [] => (k, s) :: setitem df' key []
        end
      else (k, s) :: setitem df' key new
  end.

(** The pandas conversions [cast_dtype] calls.  Each either converts the
    column or raises. *)
Class Pandas (V : Type) : Type := {
  astype : string -> Series V -> result (Series V);
  to_datetime : Series V -> result (Series V)
}.

(** ** Type classifier *)

(** The two-column frame built by [create_type_df]. *)
Record type_df : Type := {
  Variable_ : list string;
  Type_ : list string
}.

Definition create_type_df {V : Type} (df : DataFrame V) (dtype_map : dict string)
  : result type_df :=
  types <- comprehension (fun a => dict_get dtype_map a) (dtypes df) ;;
  Ok {| Variable_ := columns df; Type_ := types |}.

(** [type_dict[k] = v] *)
Fixpoint dict_set {B : Type} (d : dict B) (k : string) (v : B) : dict B :=
  match d with
  | [] => [(k, v)]
  | (k', v') :: d' =>
      if String.eqb k' k then (k', v) :: d' else (k', v') :: dict_set d' k v
  end.

Definition create_type_dict (type_df : type_df) : dict string :=
  fold_left (fun type_dict row => dict_set type_dict (fst row) (snd row))
            (combine (Variable_ type_df) (Type_ type_df)) [].

(** ** Type caster *)

Section Cast.
Context {V : Type} {pandas : Pandas V}.

(** The right-hand side and the assignment of
    [df[key] = pd.to_datetime(df[key])]: on a sub-frame pandas refuses to
    assemble a date from duplicated keys. *)
Definition assign_to_datetime (df : DataFrame V) (key : string)
  : result (DataFrame V) :=
  match select df key with
  | Missing => Err KeyError
  | One s => s' <- to_datetime s ;; Ok (setitem df key [s'])
  | Many _ => Err ValueError
  end.

(** [df[key] = df[key].astype(dtype_map[cat])]; [df[key]] is evaluated
    before the argument, and a sub-frame is converted column by column. *)
Definition assign_astype (dtype_map : dict string) (cat : string)
  (df : DataFrame V) (key : string) : result (DataFrame V) :=
  match select df key with
  | Missing => Err KeyError
  | One s =>
      t <- dict_get dtype_map cat ;;
      s' <- astype t s ;;
      Ok (setitem df key [s'])
  | Many l =>
      t <- dict_get dtype_map cat ;;
      l' <- comprehension (astype t) l ;;
      Ok (setitem df key l')
  end.

(** One iteration of the loop of [cast_dtype]: the frame after it, or the
    exception that escapes (the frame is then as it was before the
    iteration, since the assignment did not happen). *)
Definition cast_step (orig_dict res_dict dtype_map : dict string)
  (df : DataFrame V) (key : string) : result (DataFrame V) :=
  r <- dict_get res_dict key ;;
  o <- dict_get orig_dict key ;;
  if negb (String.eqb r o) then
    if String.eqb r "Date" then assign_to_datetime df key
    else assign_astype dtype_map r df key
  else Ok df.

(** The loop, threading the frame the caller shares with the function.
    The first component is that frame when the loop stops, by exhaustion
    or by an exception. *)
Fixpoint cast_loop (orig_dict res_dict dtype_map : dict string)
  (ks : list string) (df : DataFrame V) : DataFrame V * result unit :=
  match ks with
  | [] => (df, Ok tt)
  | key :: ks' =>
      match cast_step orig_dict res_dict dtype_map df key with
      | Ok df' => cast_loop orig_dict res_dict dtype_map ks' df'
      | Err e => (df, Err e)
      end
  end.

(** [cast_dtype]: the caller's frame after the call, and the second
    element of the returned tuple (the first is that same frame). *)
Definition cast_dtype (df : DataFrame V) (orig_dict res_dict dtype_map : dict string)
  : DataFrame V * result (dict string) :=
  let (df', r) := cast_loop orig_dict res_dict dtype_map (keys res_dict) df in
  (df', _ <- r ;; let orig_dict := res_dict in Ok orig_dict).
End Cast.

(** ** Encoding page *)

Definition find_valid_cols {V : Type} (df : DataFrame V) (target_var : string)
  (dtype_map : dict string) : result (list string) :=
  comprehension_if
    (fun col =>
       d <- dtype_of df col ;;
       c <- dict_get dtype_map d ;;
       Ok (String.eqb c "Categorical" && negb (str_in col target_var)))
    (columns df).

Definition find_label_type {V : Type} (df : DataFrame V) (target_var : string)
  (dtype_map : dict string) : result string :=
  d <- dtype_of df target_var ;;
  dict_get dtype_map d.

(** A two-dimensional numpy array: its number of columns and its rows. *)
Record ndarray (A : Type) : Type := {
  ncols : nat;
  rows : list (list A)
}.

(** Column [j] of a list of rows. *)
Definition column_at {A : Type} (j : nat) (rs : list (list A)) : list A :=
  flat_map (fun r => match nth_error r j with Some a => [a] | None => [] end) rs.

(** The rows of a table given by its columns ([.values] of a frame). *)
Definition rows_of {A : Type} (cols : list (list A)) : list (list A) :=
  map (fun i => column_at i cols) (seq 0 (List.length (hd [] cols))).

(** A frame of derived values: labelled columns. *)
Definition Frame (A : Type) : Type := list (string * list A).

(** [pd.DataFrame(arr)] followed by [.columns = names], and
    [pd.DataFrame(data=arr, columns=names)]: pandas raises when the number
    of labels is not the number of columns of the array. *)
Definition set_columns {A : Type} (arr : ndarray A) (names : list string)
  : result (Frame A) :=
  if Nat.eqb (List.length names) (ncols arr)
  then Ok (combine names (map (fun j => column_at j (rows arr)) (seq 0 (ncols arr))))
  else Err ValueError.

(** [pd.concat(objs, axis=1)] on frames that share the row index: the
    columns side by side; pandas raises on an empty list of objects. *)
Definition pd_concat {A : Type} (objs : list (Frame A)) : result (Frame A) :=
  match objs with
  | [] => Err ValueError
  | _ => Ok (List.concat objs)
  end.

(** [frame.drop(label, axis=1)] for a label that is present. *)
Definition drop {A : Type} (label : string) (frame : Frame A) : Frame A :=
  filter (fun c => negb (String.eqb (fst c) label)) frame.

(** A cell of the feature matrix: a value passed through from the data, an
    integer-valued number (an indicator or an ordinal code) or a statistic
    computed by an encoder. *)
Inductive feature (V num : Type) : Type :=
| Raw (v : V)
| Whole (z : Z)
| Real (x : num).

Arguments Raw {V num} v.
Arguments Whole {V num} z.
Arguments Real {V num} x.

(** The second element the encoders return: a [str] or a [list] of [str]. *)
Inductive colname : Type :=
| Single (s : string)
| Multi (l : list string).

Inductive target_type : Type :=
| continuous
| binary
| multiclass.

(** The numeric side of scikit-learn, left abstract: whether
    [TargetEncoder.fit_transform] accepts the values of [X] and [y] (its
    input validation; the shape checks and the cross-fitting folds are
    modelled in [TargetEncoder_fit_transform]), the encoding it computes
    for a row (and a class, for a multiclass target), the standardised
    value of a cell given its column, and the score of a row on a principal
    component. *)
Class Sklearn (V num : Type) : Type := {
  te_fit_check : option target_type -> list V -> list V -> bool;
  te_encoding : list V -> list V -> option V -> nat -> num;
  standardize : list num -> num -> num;
  pca_score : list (list num) -> nat -> nat -> num
}.

Section Encoders.
Context {V num : Type} {cell : Cell V} {sklearn : Sklearn V num}.

(** The distinct values of a column, in order of first occurrence. *)
Fixpoint distinct (vs : list V) : list V :=
  match vs with
  | [] => []
  | v :: vs' => v :: filter (fun x => negb (cell_eqb v x)) (distinct vs')
  end.

Definition n_distinct (vs : list V) : nat := List.length (distinct vs).

Fixpoint insert (v : V) (l : list V) : list V :=
  match l with
  | [] => [v]
  | x :: l' => if cell_leb v x then v :: l else x :: insert v l'
  end.

(** The sorted distinct values: what the encoders store as
    [categories_] and [classes_]. *)
Definition unique (vs : list V) : list V :=
  fold_right insert [] (distinct vs).

(** [df[key].values.reshape(-1, 1)] and [df[key].to_numpy().reshape(-1, 1)]:
    one column holding the cells of the selection in row-major order. *)
Definition values_reshape (df : DataFrame V) (key : string) : result (list V) :=
  match select df key with
  | Missing => Err KeyError
  | One s => Ok (values s)
  | Many l => Ok (List.concat (rows_of (map (@values V) l)))
  end.

(** [OneHotEncoder(drop="first", sparse_output=False, dtype=np.int8)
    .fit_transform(X)] on one feature: [categories_[0]] and the array of
    indicators of every category but the first.  scikit-learn refuses an
    array without samples.  Its validation of the cells themselves (it
    refuses cells it cannot order) is not part of the model. *)
Definition OneHotEncoder_fit_transform (X : list V)
  : result (list V * ndarray Z) :=
  match X with
  | [] => Err ValueError
  | _ =>
      let categories_ := unique X in
      Ok (categories_,
          {| ncols := List.length (tl categories_);
             rows := map (fun v =>
                            map (fun c => if cell_eqb v c then 1%Z else 0%Z)
                                (tl categories_)) X |})
  end.

Definition one_hot_encoding (df : DataFrame V) (x_column : string)
  : result (ndarray Z * list string) :=
  X <- values_reshape df x_column ;;
  ' (categories_, encoded_column) <- OneHotEncoder_fit_transform X ;;
  let encoded_column_name :=
    map (fun cat => x_column ++ "_one_hot_" ++ cell_str cat)%string
        (tl categories_) in
  Ok (encoded_column, encoded_column_name).

(** [type_of_target(y)] on a one-dimensional target. *)
Definition type_of_target (y : list V) : target_type :=
  if existsb cell_fractional y then continuous
  else if Nat.ltb 2 (n_distinct y) then multiclass
  else binary.

(** The fitted attributes [tartet_encoding] reads. *)
Record TargetEncoder : Type := {
  target_type_ : target_type;
  classes_ : option (list V)   (* [None] for a continuous target *)
}.

(** The number of folds of the encoder's cross-fitting ([cv=5]). *)
Definition n_splits : nat := 5.

(** The number of rows holding [v]. *)
Definition count_of (v : V) (l : list V) : nat :=
  List.length (filter (cell_eqb v) l).

(** What [fit_transform] checks besides the values: [X] and [y] have the
    same number of samples; the split into [n_splits] folds ([KFold] for a
    continuous target, [StratifiedKFold] otherwise) refuses fewer samples
    than folds, and the stratified split refuses a target none of whose
    classes has as many members as there are folds. *)
Definition cross_fitting_check (inferred : target_type) (X y : list V) : bool :=
  Nat.eqb (List.length X) (List.length y) &&
  Nat.leb n_splits (List.length X) &&
  match inferred with
  | continuous => true
  | _ => existsb (fun c => Nat.leb n_splits (count_of c y)) (distinct y)
  end.

(** [TargetEncoder(smooth="auto", target_type=tt).fit_transform(X, y)] on
    one feature; [None] stands for ["auto"].  The output has one column,
    or one column per class for a multiclass target. *)
Definition TargetEncoder_fit_transform (tt : option target_type)
  (X y : list V) : result (TargetEncoder * ndarray num) :=
  let inferred := match tt with Some t => t | None => type_of_target y end in
  if te_fit_check tt X y && cross_fitting_check inferred X y then
    let n := seq 0 (List.length X) in
    match inferred with
    | continuous =>
        Ok ({| target_type_ := continuous; classes_ := None |},
            {| ncols := 1;
               rows := map (fun i => [te_encoding X y None i]) n |})
    | binary =>
        Ok ({| target_type_ := binary; classes_ := Some (unique y) |},
            {| ncols := 1;
               rows := map (fun i => [te_encoding X y None i]) n |})
    | multiclass =>
        Ok ({| target_type_ := multiclass; classes_ := Some (unique y) |},
            {| ncols := List.length (unique y);
               rows := map (fun i =>
                              map (fun c => te_encoding X y (Some c) i)
                                  (unique y)) n |})
    end
  else Err ValueError.

(** [y=df[target_column]]: the encoder refuses a two-dimensional target. *)
Definition target_values (df : DataFrame V) (key : string) : result (list V) :=
  match select df key with
  | Missing => Err KeyError
  | One s => Ok (values s)
  | Many _ => Err ValueError
  end.

Definition tartet_encoding (df : DataFrame V) (x_column target_column coltype : string)
  : result (ndarray num * colname) :=
  x <- values_reshape df x_column ;;
  if String.eqb coltype "Numeric" then
    y <- target_values df target_column ;;
    ' (encoder, encoded_column) <-
        TargetEncoder_fit_transform (Some continuous) x y ;;
    Ok (encoded_column, Single (x_column ++ "_target"))
  else
    y <- target_values df target_column ;;
    ' (encoder, encoded_column) <- TargetEncoder_fit_transform None x y ;;
    match target_type_ encoder with
    | binary => Ok (encoded_column, Single (x_column ++ "_target"))
    | _ =>
        match classes_ encoder with
        | None => Err TypeError
        | Some classes =>
            Ok (encoded_column,
                Multi (map (fun cat => x_column ++ "_target_" ++ cell_str cat)%string
                           classes))
        end
    end.

Fixpoint index_of (v : V) (l : list V) : nat :=
  match l with
  | [] => 0
  | x :: l' => if cell_eqb v x then 0 else S (index_of v l')
  end.

(** [OrdinalEncoder(...).fit_transform(X)] on one feature: the position of
    each value among the sorted categories.  Cells are taken to be present:
    the NaN code the encoder gives a missing value is not part of the
    model. *)
Definition OrdinalEncoder_fit_transform (X : list V) : result (ndarray Z) :=
  match X with
  | [] => Err ValueError
  | _ =>
      Ok {| ncols := 1;
            rows := map (fun v => [Z.of_nat (index_of v (unique X))]) X |}
  end.

Definition ordinal_encoding (df : DataFrame V) (x_column : string)
  : result (ndarray Z * colname) :=
  X <- values_reshape df x_column ;;
  encoded_column <- OrdinalEncoder_fit_transform X ;;
  Ok (encoded_column, Single (x_column ++ "_ordinal")).

Definition array_map {A B : Type} (f : A -> B) (arr : ndarray A) : ndarray B :=
  {| ncols := ncols arr; rows := map (map f) (rows arr) |}.

(** [create_encoded_column]: when no branch is taken, [encoded_column] is
    unbound at the [return]. *)
Definition create_encoded_column (encoding x_column : string) (df : DataFrame V)
  (target_column y_type : string)
  : result (ndarray (feature V num) * colname) :=
  if String.eqb encoding "One-Hot" then
    ' (encoded_column, encoded_column_name) <- one_hot_encoding df x_column ;;
    Ok (array_map Whole encoded_column, Multi encoded_column_name)
  else if String.eqb encoding "Target" then
    ' (encoded_column, encoded_column_name) <-
        tartet_encoding df x_column target_column y_type ;;
    Ok (array_map Real encoded_column, encoded_column_name)
  else if String.eqb encoding "Ordinal" then
    ' (encoded_column, encoded_column_name) <- ordinal_encoding df x_column ;;
    Ok (array_map Whole encoded_column, encoded_column_name)
  else Err UnboundLocalError.

(** A row of the user's choices [res_df]. *)
Record encoding_row : Type := {
  Variable_of : string;
  Encoding_of : string
}.

(** [df[col]] as an operand of [pd.concat]. *)
Definition getitem_frame (df : DataFrame V) (col : string)
  : result (Frame (feature V num)) :=
  match labelled col df with
  | [] => Err KeyError
  | cs => Ok (map (fun c => (fst c, map Raw (values (snd c)))) cs)
  end.

(** The loop of [create_model_df] over [res_df.iterrows()]. *)
Fixpoint encode_rows (res_df : list encoding_row) (df : DataFrame V)
  (target_var y_type : string) (model_df : Frame (feature V num))
  : result (Frame (feature V num)) :=
  match res_df with
  | [] => Ok model_df
  | row :: rest =>
      ' (encoded_col, encoded_colname) <-
          create_encoded_column (Encoding_of row) (Variable_of row) df
                                target_var y_type ;;
      encoded_col <-
        match encoded_colname with
        | Single s => set_columns encoded_col [s]
        | Multi l => set_columns encoded_col l
        end ;;
      model_df <- pd_concat [model_df; encoded_col] ;;
      encode_rows rest df target_var y_type model_df
  end.

Definition create_model_df (res_df : list encoding_row) (df : DataFrame V)
  (target_var y_type : string) (dtype_map : dict string)
  : result (Frame (feature V num)) :=
  numeric <- comprehension_if
               (fun col1 =>
                  d <- dtype_of df col1 ;;
                  c <- dict_get dtype_map d ;;
                  Ok (String.eqb c "Numeric"))
               (columns df) ;;
  series <- comprehension (getitem_frame df) numeric ;;
  model_df <- pd_concat series ;;
  model_df <- encode_rows res_df df target_var y_type model_df ;;
  if existsb (String.eqb target_var) (columns model_df)
  then Ok (drop target_var model_df)
  else Ok model_df.

(** ** Dimensionality reduction *)

(** [df] as the array scikit-learn receives. *)
Definition to_numpy (df : Frame num) : ndarray num :=
  {| ncols := List.length df; rows := rows_of (map snd df) |}.

(** [StandardScaler().fit_transform(X)]: every cell standardised within
    its column; an array without samples or without features is refused. *)
Definition StandardScaler_fit_transform (X : ndarray num) : result (ndarray num) :=
  match rows X, ncols X with
  | [], _ => Err ValueError
  | _, 0 => Err ValueError
  | rs, _ =>
      Ok {| ncols := ncols X;
            rows := map (fun r =>
                           map (fun jx => standardize (column_at (fst jx) rs) (snd jx))
                               (combine (seq 0 (List.length r)) r)) rs |}
  end.

(** [PCA(n_components=n_comp).fit_transform(X)]: scikit-learn requires
    [0 <= n_components <= min(n_samples, n_features)].  Its validation of
    the cells (it refuses NaN) is not part of the model. *)
Definition PCA_fit_transform (n_comp : Z) (X : ndarray num) : result (ndarray num) :=
  let n_samples := List.length (rows X) in
  let n_features := ncols X in
  if ((0 <=? n_comp)%Z && (n_comp <=? Z.of_nat (Nat.min n_samples n_features))%Z)%bool then
    Ok {| ncols := Z.to_nat n_comp;
          rows := map (fun i => map (fun j => pca_score (rows X) i j)
                                    (seq 0 (Z.to_nat n_comp)))
                      (seq 0 n_samples) |}
  else Err ValueError.

Definition create_pca_after (df : Frame num) (n_comp : Z) : result (Frame num) :=
  scaled <- StandardScaler_fit_transform (to_numpy df) ;;
  principal_components <- PCA_fit_transform n_comp scaled ;;
  set_columns principal_components
              (map (fun i => "PC" ++ str_of_nat (i + 1))%string
                   (seq 0 (Z.to_nat n_comp))).
End Encoders.

(** ** Executable instances, for running the module on examples *)

(** Uploaded text columns: [to_datetime] accepts ISO dates
    ([YYYY-MM-DD]) only, and [astype] accepts digit strings for the numeric
    storage types and anything for the others. *)
Definition is_digit (c : ascii) : bool :=
  let n := nat_of_ascii c in (48 <=? n)%nat && (n <=? 57)%nat.

Fixpoint all_digits (s : string) : bool :=
  match s with
  | EmptyString => true
  | String c s' => is_digit c && all_digits s'
  end.

Definition is_iso_date (s : string) : bool :=
  match s with
  | String y1 (String y2 (String y3 (String y4 (String d1
      (String m1 (String m2 (String d2 (String a1 (String a2 EmptyString))))))))) =>
      forallb is_digit [y1; y2; y3; y4; m1; m2; a1; a2]
      && Ascii.eqb d1 "-" && Ascii.eqb d2 "-"
  | _ => false
  end.

#[export] Instance text_pandas : Pandas string := {
  astype := fun t s =>
    if String.eqb t "int64" || String.eqb t "float64" then
      if forallb (fun v => all_digits v && negb (String.eqb v EmptyString)) (values s)
      then Ok {| dtype := t; values := values s |}
      else Err ValueError
    else Ok {| dtype := t; values := values s |};
  to_datetime := fun s =>
    if forallb is_iso_date (values s)
    then Ok {| dtype := "datetime64[ns]"; values := values s |}
    else Err ValueError
}.

(** Counting in place of smoothed statistics: the target encoding of a row
    is the number of rows of its category (with the given class), scaling
    is the identity and the score on component [j] is feature [j].  Text
    cells are valid input, except that a target declared continuous must
    hold numbers. *)
#[export] Instance counting_sklearn : Sklearn string Z := {
  te_fit_check := fun tt X y =>
    match tt with
    | Some continuous => forallb all_digits y
    | _ => true
    end;
  te_encoding := fun X y c i =>
    let xi := nth i X EmptyString in
    Z.of_nat (List.length
      (filter (fun xy => String.eqb (fst xy) xi &&
                         match c with
                         | None => true
                         | Some cl => String.eqb (snd xy) cl
                         end) (combine X y)));
  standardize := fun _ x => x;
  pca_score := fun X i j => nth j (nth i X []) 0%Z
}.

(** ** Example data *)

(** The type map of [load_data]. *)
Definition dtype_map_inverse : dict string :=
  [("float64", "Numeric"); ("category", "Categorical"); ("object", "Categorical");
   ("int64", "Numeric"); ("datetime64[ns]", "Date")].

(** Three people: age, city, weight and a free-text column. *)
Definition people : DataFrame string :=
  [("age",    {| dtype := "int64";   values := ["30"; "41"; "25"] |});
   ("city",   {| dtype := "object";  values := ["B"; "A"; "C"] |});
   ("weight", {| dtype := "float64"; values := ["70"; "82"; "64"] |});
   ("eight",  {| dtype := "object";  values := ["x"; "y"; "x"] |})].

(** Seven people, enough for the five folds of target encoding: a
    two-class column ("smoker"), a three-class column ("drink") and a
    numeric target. *)
Definition drinkers : DataFrame string :=
  [("city",   {| dtype := "object";
                 values := ["B"; "A"; "C"; "A"; "B"; "A"; "C"] |});
   ("smoker", {| dtype := "object";
                 values := ["yes"; "yes"; "no"; "yes"; "yes"; "yes"; "no"] |});
   ("drink",  {| dtype := "object";
                 values := ["beer"; "beer"; "wine"; "beer"; "none"; "beer"; "beer"] |});
   ("weight", {| dtype := "float64";
                 values := ["70"; "82"; "64"; "91"; "58"; "77"; "69"] |})].

(** The semantic categories a type map may assign. *)
Definition categories : list string := ["Numeric"; "Categorical"; "Date"].

(** A type map in the sense of the data model: every storage type it knows
    is mapped to one of the three semantic categories. *)
Definition type_map (dtype_map : dict string) : Prop :=
  forall t c, dict_find dtype_map t = Some c -> In c categories.

(** The type map covers every storage type occurring in the frame. *)
Definition covers {V : Type} (dtype_map : dict string) (df : DataFrame V) : Prop :=
  forall col, In col df -> dict_find dtype_map (dtype (snd col)) <> None.

(** The semantic category of the column labelled [col]. *)
Definition category_of {V : Type} (df : DataFrame V) (dtype_map : dict string)
  (col : string) : result string :=
  d <- dtype_of df col ;;
  dict_get dtype_map d.

(** The categories of [people] under [dtype_map_inverse], as a dictionary. *)
Definition people_cats : dict string :=
  [("age", "Numeric"); ("city", "Categorical"); ("weight", "Numeric");
   ("eight", "Categorical")].

(** A representative storage type for the categories [astype] is asked for. *)
Definition cast_map : dict string :=
  [("Numeric", "float64"); ("Categorical", "object")].

(** The conversion [cast_dtype] applies to a column when category [cat] is
    requested for it. *)
Definition requested_conversion {V : Type} {pandas : Pandas V}
  (dtype_map : dict string) (cat : string) (s : Series V) : result (Series V) :=
  if String.eqb cat "Date" then to_datetime s
  else t <- dict_get dtype_map cat ;; astype t s.

(** The selected columns after [setitem]: the new series, label by label. *)
Fixpoint zip_replace {V : Type} (cs : DataFrame V) (new : list (Series V))
  : DataFrame V :=
  match cs, new with
  | c :: cs', s' :: new' => (fst c, s') :: zip_replace cs' new'
  | _, _ => cs
  end.

(** The user's choice for the example: one-hot encode "city". *)
Definition city_one_hot : list encoding_row :=
  [{| Variable_of := "city"; Encoding_of := "One-Hot" |}].

(** A feature matrix with three columns and two rows. *)
Definition three_features : Frame Z :=
  [("age", [30; 41]%Z); ("city_one_hot_B", [1; 0]%Z); ("city_one_hot_C", [0; 0]%Z)].



(** ** The rest of the module *)

(** [df[col] = df[col].astype(t)] for a literal storage type [t]. *)
Definition assign_astype_literal {V : Type} {pandas : Pandas V} (t : string)
  (df : DataFrame V) (key : string) : result (DataFrame V) :=
  match select df key with
  | Missing => Err KeyError
  | One s => s' <- astype t s ;; Ok (setitem df key [s'])
  | Many l => l' <- comprehension (astype t) l ;; Ok (setitem df key l')
  end.

(** One iteration of the loop of [cast_date_to_timestamp]. *)
Definition timestamp_step {V : Type} {pandas : Pandas V}
  (df : DataFrame V) (col : string) : result (DataFrame V) :=
  d <- dtype_of df col ;;
  if String.eqb d "datetime64[ns]" then assign_astype_literal "int64" df col
  else Ok df.

Fixpoint timestamp_loop {V : Type} {pandas : Pandas V}
  (cols : list string) (df : DataFrame V) : DataFrame V * result unit :=
  match cols with
  | [] => (df, Ok tt)
  | col :: cols' =>
      match timestamp_step df col with
      | Ok df' => timestamp_loop cols' df'
      | Err e => (df, Err e)
      end
  end.

(** The body of [cast_date_to_timestamp]: the caller's frame after the
    call, and whether the call returned (that same frame) or raised.  The
    labels iterated over are those the frame has when the loop starts. *)
Definition cast_date_to_timestamp {V : Type} {pandas : Pandas V}
  (df : DataFrame V) : DataFrame V * result unit :=
  timestamp_loop (columns df) df.

(** The file [load_data] reads. *)
Definition drinking_csv : string :=
  "C:/Projects/Rajk/prog_2/project/prog_machine_project/data/drinking.csv".

(** [load_data], with the CSV reader as a parameter. *)
Definition load_data {V num : Type} {cell : Cell V} {sklearn : Sklearn V num}
  (read_csv : string -> result (DataFrame V)) : result (Frame (feature V num)) :=
  df <- read_csv drinking_csv ;;
  let target_var := "weight" in
  valid_cols <- find_valid_cols df target_var dtype_map_inverse ;;
  y_type <- find_label_type df target_var dtype_map_inverse ;;
  let original_encodings :=
    map (fun v => {| Variable_of := v; Encoding_of := "One-Hot" |}) valid_cols in
  create_model_df original_encodings df target_var y_type dtype_map_inverse.

(** [filter_data]: [df[cols]] for a list of labels; pandas raises when a
    label is not in the frame. *)
Definition filter_data {A : Type} (df : list (string * A)) (cols : list string)
  : result (list (string * A)) :=
  parts <- comprehension
             (fun col => match labelled col df with
                         | [] => Err KeyError
                         | cs => Ok cs
                         end) cols ;;
  Ok (List.concat parts).

(** What [create_pca_before] takes from the fitted PCA and from numpy's
    floating-point numbers: the explained variance ratio of a component
    (for a matrix with more than one row), the addition [cumsum]
    accumulates with, the comparison, the numbers 0 and 1, and NaN.  Two
    facts about floating-point numbers are kept, which rounding does not
    break: a comparison with NaN is false, and the sum of two non-negative
    numbers is non-negative and not below the first. *)
Class Decomposition (num : Type) : Type := {
  explained_variance_ratio_ : list (list num) -> nat -> num;
  num_add : num -> num -> num;
  num_leb : num -> num -> bool;
  num_zero : num;
  num_one : num;
  num_nan : num;
  num_leb_nan_l : forall x, num_leb num_nan x = false;
  num_leb_nan_r : forall x, num_leb x num_nan = false;
  num_add_nonneg : forall a b,
    num_leb num_zero a = true -> num_leb num_zero b = true ->
    num_leb num_zero (num_add a b) = true /\ num_leb a (num_add a b) = true
}.

(** [a.cumsum()]: the running sums, accumulated from the left. *)
Fixpoint cumsum_from {num : Type} {dec : Decomposition num} (acc : num)
  (l : list num) : list num :=
  match l with
  | [] => []
  | x :: l' => num_add acc x :: cumsum_from (num_add acc x) l'
  end.

Definition cumsum {num : Type} {dec : Decomposition num} (l : list num) : list num :=
  match l with
  | [] => []
  | x :: l' => x :: cumsum_from x l'
  end.

(** The three columns of the frame [create_pca_before] returns. *)
Record variance_df (num : Type) : Type := {
  Number_of_Principal_Components : list nat;
  Explained_Variance_Ratio : list num;
  Cumulative_Explained_Variance : list num
}.

(** [create_pca_before]: [PCA()] keeps [min(n_samples, n_features)]
    components and divides their variances by [n_samples - 1]; on a single
    row that is 0/0, and every ratio is NaN. *)
Definition create_pca_before {V num : Type} {sklearn : Sklearn V num}
  {dec : Decomposition num} (df : Frame num) : result (variance_df num) :=
  scaled <- StandardScaler_fit_transform (to_numpy df) ;;
  let n_samples := List.length (rows scaled) in
  let n_components_ := Nat.min n_samples (ncols scaled) in
  let explained_variance_ratio :=
    map (fun j => if Nat.eqb n_samples 1 then num_nan
                  else explained_variance_ratio_ (rows scaled) j)
        (seq 0 n_components_) in
  let cumulative_explained_variance := cumsum explained_variance_ratio in
  Ok {| Number_of_Principal_Components :=
          seq 1 (List.length explained_variance_ratio);
        Explained_Variance_Ratio := explained_variance_ratio;
        Cumulative_Explained_Variance := cumulative_explained_variance |}.

(** Numbers for running the variance report on examples: NaN, or a number
    counted in thousandths. *)
Inductive number : Type :=
| NaN
| Thousandths (z : Z).

Definition number_add (a b : number) : number :=
  match a, b with
  | Thousandths x, Thousandths y => Thousandths (x + y)
  | _, _ => NaN
  end.

Definition number_leb (a b : number) : bool :=
  match a, b with
  | Thousandths x, Thousandths y => (x <=? y)%Z
  | _, _ => false
  end.

(** Every component explains an equal share. *)
#[export, refine] Instance equal_shares : Decomposition number := {
  explained_variance_ratio_ := fun X j =>
    Thousandths
      (1000 / Z.of_nat (Nat.min (List.length X) (List.length (hd [] X))));
  num_add := number_add;
  num_leb := number_leb;
  num_zero := Thousandths 0;
  num_one := Thousandths 1000;
  num_nan := NaN
}.
Proof.
  - intros x. reflexivity.
  - intros [| x]; reflexivity.
  - intros [| a] [| b]; cbn; try discriminate.
    intros Ha Hb. apply Z.leb_le in Ha, Hb. split; apply Z.leb_le; lia.
Defined.

(** Scaling by the identity on these numbers. *)
Definition plain_sklearn : Sklearn string number := {|
  te_fit_check := fun _ _ _ => true;
  te_encoding := fun _ _ _ _ => NaN;
  standardize := fun _ x => x;
  pca_score := fun X i j => nth j (nth i X []) NaN
|}.

(** Age and height of three people, and of one. *)
Definition measures : Frame number :=
  [("age",    [Thousandths 30000; Thousandths 41000; Thousandths 25000]);
   ("height", [Thousandths 172000; Thousandths 181000; Thousandths 165000])].






(** The labels an encoder's second result assigns. *)
Definition names_of (name : colname) : list string :=
  match name with
  | Single s => [s]
  | Multi l => l
  end.

(** Numeric cells with one decimal digit, stored as tenths: [25] stands
    for 2.5 and is fractional, [30] stands for 3.0 and is not. *)
Definition str_of_tenths (z : Z) : string :=
  ((if (z <? 0)%Z then "-" else EmptyString)
   ++ str_of_nat (Z.to_nat (Z.abs z / 10)) ++ "."
   ++ str_of_nat (Z.to_nat (Z.abs z mod 10)))%string.

Definition tenths_cell : Cell Z.
Proof.
  refine {| cell_eqb := Z.eqb;
            cell_leb := Z.leb;
            cell_str := str_of_tenths;
            cell_fractional := fun z => negb (z mod 10 =? 0)%Z |}.
  - intros a b. apply Z.eqb_eq.
  - intros a b. destruct (Z.leb_spec a b); [ left; reflexivity | right ].
    apply Z.leb_le. lia.
Defined.

Definition counting_sklearn_tenths : Sklearn Z Z := {|
  te_fit_check := fun _ _ _ => true;
  te_encoding := fun X y c i =>
    let xi := nth i X 0%Z in
    Z.of_nat (List.length
      (filter (fun xy => Z.eqb (fst xy) xi &&
                         match c with
                         | None => true
                         | Some cl => Z.eqb (snd xy) cl
                         end) (combine X y)));
  standardize := fun _ x => x;
  pca_score := fun X i j => nth j (nth i X []) 0%Z
|}.

(** Five readings at sites 1.0 and 2.0, with levels 1.5 and 2.5 kept in a
    categorical column. *)
Definition readings : DataFrame Z :=
  [("site",  {| dtype := "category"; values := [10; 20; 10; 20; 10]%Z |});
   ("level", {| dtype := "category"; values := [15; 25; 15; 25; 15]%Z |})].

(** An array with [n] rows, each as long as the array has columns. *)
Definition rectangular {A : Type} (n : nat) (arr : ndarray A) : Prop :=
  List.length (rows arr) = n /\
  Forall (fun r => List.length r = ncols arr) (rows arr).

(** The cells a numeric column passes through to the feature matrix. *)
Definition raw_column {V num : Type} (df : DataFrame V) (col : string)
  : list (feature V num) :=
  match select df col with
  | One s => map Raw (values s)
  | _ => []
  end.

(** [frame] is what the loop of [create_model_df] appends for [row]: the
    encoded column, relabelled with the names the encoder returned. *)
Definition encoded_as {V num : Type} {cell : Cell V} {sklearn : Sklearn V num}
  (df : DataFrame V) (target_var y_type : string) (row : encoding_row)
  (frame : Frame (feature V num)) : Prop :=
  exists encoded_col encoded_colname,
    create_encoded_column (Encoding_of row) (Variable_of row) df target_var y_type
      = Ok (encoded_col, encoded_colname) /\
    set_columns encoded_col (names_of encoded_colname) = Ok frame.

(** A strategy name [create_encoded_column] has no branch for. *)
Definition unknown_encoding (encoding : string) : Prop :=
  encoding <> "One-Hot" /\ encoding <> "Target" /\ encoding <> "Ordinal".

(** What [cast_date_to_timestamp] does to a column: a datetime column is
    converted to [int64], any other column is kept. *)
Definition timestamped {V : Type} {pandas : Pandas V} (s s' : Series V) : Prop :=
  if String.eqb (dtype s) "datetime64[ns]" then astype "int64" s = Ok s'
  else s' = s.

(** Two events with their time, parsed as dates. *)
Definition events : DataFrame string :=
  [("when", {| dtype := "datetime64[ns]"; values := ["1700000000"; "1700003600"] |});
   ("what", {| dtype := "object"; values := ["start"; "stop"] |})].

(** The number of rows of a frame of derived values: the length of its
    first column. *)
Definition frame_rows {A : Type} (df : Frame A) : nat :=
  List.length (hd [] (map snd df)).

(** The label of the [i]-th principal component, counting from 0. *)
Definition PC_label (i : nat) : string := ("PC" ++ str_of_nat (i + 1))%string.

(** A result that is not the unbound-variable error. *)
Definition bound {A : Type} (r : result A) : Prop := r <> Err UnboundLocalError.

(** * Properties *)

Unset Implicit Arguments.

Ltac bind_inv H :=
  match type of H with
  | bind ?r _ = _ =>
      let E := fresh "E" in
      let v := fresh "v" in
      destruct r as [v | ] eqn:E; cbn [bind] in H; [ | discriminate H ]
  end.

(** ** Results and comprehensions *)

Lemma comprehension_Ok {A B : Type} (f : A -> result B) (l : list A) (bs : list B) :
  comprehension f l = Ok bs -> Forall2 (fun a b => f a = Ok b) l bs.
Proof.
  revert bs. induction l as [| a l IH]; intros bs H; cbn in H.
  - injection H as <-. constructor.
  - bind_inv H. bind_inv H. injection H as <-.
    constructor; [ assumption | apply IH; reflexivity ].
Qed.

Lemma comprehension_all_Ok {A B : Type} (f : A -> result B) (l : list A) :
  Forall (fun a => exists b, f a = Ok b) l ->
  exists bs, comprehension f l = Ok bs.
Proof.
  induction 1 as [| a l [b Hb] _ [bs Hbs]]; cbn.
  - eexists; reflexivity.
  - rewrite Hb; cbn. rewrite Hbs; cbn. eexists; reflexivity.
Qed.

Lemma comprehension_Err {A B : Type} (f : A -> result B) (l : list A) (e : exn) :
  comprehension f l = Err e -> exists a, In a l /\ f a = Err e.
Proof.
  induction l as [| a l IH]; cbn; intros H; [ discriminate | ].
  destruct (f a) as [b | e'] eqn:Ea; cbn in H.
  - destruct (comprehension f l) as [bs | e''] eqn:El; cbn in H; [ discriminate | ].
    injection H as ->. destruct (IH eq_refl) as (a' & Hin & Ha').
    exists a'; split; [ right | ]; assumption.
  - injection H as ->. exists a; split; [ left; reflexivity | assumption ].
Qed.

Lemma comprehension_if_Ok {A : Type} (p : A -> result bool) (l r : list A) :
  comprehension_if p l = Ok r ->
  (forall a, In a l -> exists b, p a = Ok b) /\
  (forall a, In a r <-> In a l /\ p a = Ok true).
Proof.
  revert r. induction l as [| x l IH]; intros r H; cbn in H.
  - injection H as <-. split; [ intros a [] | intros a; cbn; tauto ].
  - bind_inv H. bind_inv H. injection H as <-.
    destruct (IH _ eq_refl) as [IH1 IH2]. split.
    + intros a [<- | Hin]; [ eexists; eassumption | apply IH1, Hin ].
    + intros c. destruct v; cbn; rewrite ?IH2; split.
      * intros [Hc | [Hin Hp]].
        -- subst c. split; [ left; reflexivity | assumption ].
        -- split; [ right | ]; assumption.
      * intros [[Hc | Hin] Hp]; [ left; assumption | right; split; assumption ].
      * intros [Hin Hp]. split; [ right | ]; assumption.
      * intros [[Hc | Hin] Hp]; [ subst c; congruence | split; assumption ].
Qed.

Lemma dict_get_Ok {B : Type} (d : dict B) (k : string) (v : B) :
  dict_get d k = Ok v <-> dict_find d k = Some v.
Proof.
  unfold dict_get. destruct (dict_find d k); split; congruence.
Qed.

Lemma dict_get_Err {B : Type} (d : dict B) (k : string) (e : exn) :
  dict_get d k = Err e <-> dict_find d k = None /\ e = KeyError.
Proof.
  unfold dict_get. destruct (dict_find d k); split; intros H.
  - discriminate H.
  - destruct H; discriminate.
  - injection H as <-. split; reflexivity.
  - destruct H as [_ ->]. reflexivity.
Qed.

(** ** Substrings *)

Lemma starts_with_spec (p s : string) :
  starts_with p s = true <-> exists post, s = (p ++ post)%string.
Proof.
  revert s. induction p as [| a p IH]; intros s; cbn.
  - split; [ intros _; exists s; reflexivity | reflexivity ].
  - destruct s as [| b s].
    + split; [ discriminate | intros [post H]; discriminate H ].
    + rewrite andb_true_iff, Ascii.eqb_eq, IH. split.
      * intros [<- [post ->]]. exists post; reflexivity.
      * intros [post H]. injection H as <- ->. split; [ reflexivity | ].
        exists post; reflexivity.
Qed.

Lemma str_in_spec (sub s : string) :
  str_in sub s = true <-> substring_of sub s.
Proof.
  unfold substring_of. induction s as [| b s IH].
  - cbn. rewrite orb_false_r, starts_with_spec. split.
    + intros [post H]. exists EmptyString, post. exact H.
    + intros ([| c pre] & post & H); [ exists post; exact H | discriminate H ].
  - cbn [str_in]. rewrite orb_true_iff, starts_with_spec, IH. split.
    + intros [[post H] | (pre & post & ->)].
      * exists EmptyString, post. exact H.
      * exists (String b pre), post. reflexivity.
    + intros ([| c pre] & post & H).
      * left. exists post. exact H.
      * right. cbn in H. injection H as _ ->. exists pre, post. reflexivity.
Qed.

(** ** Type classifier *)

Lemma type_map_of_values (dtype_map : dict string) :
  Forall (fun kv => In (snd kv) categories) dtype_map -> type_map dtype_map.
Proof.
  intros H t c. induction H as [| [k v] d Hv _ IH]; cbn [dict_find].
  - discriminate.
  - destruct (String.eqb k t); [ intros [= <-]; exact Hv | exact IH ].
Qed.

Lemma type_map_inverse_ok : type_map dtype_map_inverse.
Proof.
  apply type_map_of_values. unfold dtype_map_inverse, categories.
  repeat constructor; cbn; tauto.
Qed.

(** C8. For a type map covering every storage type of the frame,
    [create_type_df] returns a table with one row per column, in column
    order, whose category is the type map's image of the column's storage
    type, hence one of Numeric, Categorical and Date for a type map; and
    [create_type_df] raises (a [KeyError]) exactly when the storage type of
    some column is absent from the type map. *)
Theorem create_type_df_classifies {V : Type} (df : DataFrame V) (dtype_map : dict string) :
  type_map dtype_map ->
  (covers dtype_map df ->
   exists t, create_type_df df dtype_map = Ok t /\
             Variable_ t = columns df /\
             List.length (Type_ t) = List.length df /\
             Forall2 (fun col c => dict_find dtype_map (dtype (snd col)) = Some c)
                     df (Type_ t) /\
             Forall (fun c => In c categories) (Type_ t)) /\
  (is_err (create_type_df df dtype_map) <->
   exists col, In col df /\ dict_find dtype_map (dtype (snd col)) = None) /\
  (is_err (create_type_df df dtype_map) ->
   create_type_df df dtype_map = Err KeyError).
Proof.
  intros Hmap. unfold create_type_df, dtypes.
  assert (Hok : forall ts,
             comprehension (fun a => dict_get dtype_map a)
                           (map (fun c => dtype (snd c)) df) = Ok ts ->
             Forall2 (fun col c => dict_find dtype_map (dtype (snd col)) = Some c) df ts).
  { intros ts H. apply comprehension_Ok in H.
    remember (map (fun c => dtype (snd c)) df) as ds eqn:Eds.
    revert df Eds. induction H as [| d c ds ts Hd _ IH]; intros df Eds.
    - destruct df; [ constructor | discriminate ].
    - destruct df as [| col df]; [ discriminate | ].
      cbn in Eds. injection Eds as -> ->.
      constructor; [ apply dict_get_Ok, Hd | apply IH; reflexivity ]. }
  split; [ | split ].
  - intros Hcov.
    destruct (@comprehension_all_Ok _ _ (fun a => dict_get dtype_map a)
                (map (fun c => dtype (snd c)) df)) as [ts Hts].
    { apply Forall_forall. intros d Hd. apply in_map_iff in Hd.
      destruct Hd as (col & <- & Hcol). specialize (Hcov col Hcol).
      unfold dict_get. destruct (dict_find dtype_map (dtype (snd col)));
        [ eexists; reflexivity | congruence ]. }
    rewrite Hts. cbn. eexists. split; [ reflexivity | ]. cbn.
    pose proof (Hok ts Hts) as HF. repeat split.
    + symmetry. eapply Forall2_length, HF.
    + exact HF.
    + clear Hts Hok Hcov. induction HF as [| col c df' ts' Hc _ IH];
        constructor; [ eapply Hmap, Hc | exact IH ].
  - split.
    + intros [e He].
      destruct (comprehension _ _) as [ts | e'] eqn:Ec; cbn in He; [ discriminate | ].
      apply comprehension_Err in Ec. destruct Ec as (d & Hin & Hd).
      apply in_map_iff in Hin. destruct Hin as (col & <- & Hcol).
      apply dict_get_Err in Hd. exists col. tauto.
    + intros (col & Hcol & Hnone).
      destruct (comprehension _ _) as [ts | e'] eqn:Ec; cbn.
      * exfalso. pose proof (Hok ts eq_refl) as HF.
        clear Hok Ec. induction HF as [| col' c df' ts' Hc _ IH]; [ contradiction | ].
        destruct Hcol as [-> | Hcol]; [ congruence | exact (IH Hcol) ].
      * eexists; reflexivity.
  - intros [e He].
    destruct (comprehension _ _) as [ts | e'] eqn:Ec; cbn in He; [ discriminate | ].
    cbn. apply comprehension_Err in Ec. destruct Ec as (d & _ & Hd).
    apply dict_get_Err in Hd. destruct Hd as [_ ->]. reflexivity.
Qed.

Lemma people_covered : covers dtype_map_inverse people.
Proof.
  intros col Hin. cbn in Hin.
  repeat (destruct Hin as [<- | Hin]; [ cbn; discriminate | ]).
  contradiction.
Qed.

Lemma create_type_df_classifies_witness :
  create_type_df people dtype_map_inverse
  = Ok {| Variable_ := ["age"; "city"; "weight"; "eight"];
          Type_ := ["Numeric"; "Categorical"; "Numeric"; "Categorical"] |} /\
  create_type_df people [("int64", "Numeric")] = Err KeyError.
Proof.
  pose proof (create_type_df_classifies people dtype_map_inverse type_map_inverse_ok) as [H1 _].
  destruct (H1 people_covered) as (t & Ht & _).
  pose proof (create_type_df_classifies people [("int64", "Numeric")]) as H2.
  assert (Hm : type_map [("int64", "Numeric")]).
  { apply type_map_of_values. repeat constructor; cbn; tauto. }
  split; [ vm_compute; reflexivity | ].
  apply (H2 Hm). apply (H2 Hm).
  exists ("city", {| dtype := "object"; values := ["B"; "A"; "C"] |}).
  split; [ cbn; tauto | reflexivity ].
Defined.

(** ** Encodable columns *)

(** C10. Among the categorical columns of the frame, [find_valid_cols]
    leaves out exactly those whose name occurs as a contiguous substring of
    the target variable's name (the target itself included); the columns it
    keeps are all categorical. *)
Theorem find_valid_cols_substring {V : Type} (df : DataFrame V)
  (target_var : string) (dtype_map : dict string) (valid_cols : list string) :
  find_valid_cols df target_var dtype_map = Ok valid_cols ->
  (forall col,
      In col (columns df) ->
      category_of df dtype_map col = Ok "Categorical" ->
      (~ In col valid_cols <-> substring_of col target_var)) /\
  (forall col,
      In col valid_cols ->
      In col (columns df) /\ category_of df dtype_map col = Ok "Categorical").
Proof.
  unfold find_valid_cols, category_of. intros H.
  apply comprehension_if_Ok in H. destruct H as [_ H]. split.
  - intros col Hin Hcat. rewrite H, <- str_in_spec.
    destruct (dtype_of df col) as [d | ]; cbn in *; [ | discriminate ].
    rewrite Hcat. cbn. destruct (str_in col target_var); split.
    + reflexivity.
    + intros _ [_ Hp]. discriminate Hp.
    + intros Hn. exfalso. apply Hn. split; [ assumption | reflexivity ].
    + discriminate.
  - intros col Hin. apply H in Hin. destruct Hin as [Hin Hp].
    split; [ assumption | ].
    destruct (dtype_of df col) as [d | ]; cbn in *; [ | discriminate ].
    destruct (dict_get dtype_map d) as [c | ]; cbn in *; [ | discriminate ].
    injection Hp as Hp. apply andb_true_iff in Hp. destruct Hp as [Hp _].
    apply String.eqb_eq in Hp. subst c. reflexivity.
Qed.

(** With target "weight", the categorical column "eight" is left out along
    with the target's own name. *)
Lemma find_valid_cols_substring_witness :
  find_valid_cols people "weight" dtype_map_inverse = Ok ["city"] /\
  ~ In "eight" ["city"] /\
  substring_of "eight" "weight".
Proof.
  assert (E : find_valid_cols people "weight" dtype_map_inverse = Ok ["city"])
    by (vm_compute; reflexivity).
  pose proof (find_valid_cols_substring people "weight" dtype_map_inverse _ E) as [H _].
  specialize (H "eight").
  assert (Hex : ~ In "eight" ["city"]).
  { cbn. intros [Hc | []]. discriminate Hc. }
  split; [ exact E | split; [ exact Hex | ] ].
  apply H; [ cbn; tauto | vm_compute; reflexivity | exact Hex ].
Defined.

(** ** Type caster *)

Section CastFacts.
Context {V : Type} {pandas : Pandas V}.

Lemma labelled_setitem_other (df : DataFrame V) (key k : string) (new : list (Series V)) :
  k <> key -> labelled k (setitem df key new) = labelled k df.
Proof.
  unfold labelled.
  intros Hk. revert new. induction df as [| [k0 s0] df IH]; intros new; cbn.
  - reflexivity.
  - destruct (String.eqb k0 key) eqn:E0.
    + apply String.eqb_eq in E0. subst k0.
      assert (Ek : String.eqb key k = false)
        by (apply String.eqb_neq; congruence).
      destruct new as [| s' new]; cbn; rewrite Ek; apply IH.
    + cbn. destruct (String.eqb k0 k); [ f_equal | ]; apply IH.
Qed.

Lemma zip_replace_nil (cs : DataFrame V) : zip_replace cs [] = cs.
Proof. destruct cs; reflexivity. Qed.

Lemma labelled_setitem_same (df : DataFrame V) (key : string) (new : list (Series V)) :
  labelled key (setitem df key new) = zip_replace (labelled key df) new.
Proof.
  unfold labelled.
  revert new. induction df as [| [k0 s0] df IH]; intros new; cbn.
  - destruct new; reflexivity.
  - destruct (String.eqb k0 key) eqn:E0.
    + destruct new as [| s' new]; cbn; rewrite E0; cbn.
      * rewrite IH, zip_replace_nil. reflexivity.
      * rewrite IH. reflexivity.
    + cbn. rewrite E0. apply IH.
Qed.

Lemma select_labelled (df df' : DataFrame V) (k : string) :
  labelled k df' = labelled k df -> select df' k = select df k.
Proof. unfold select. intros ->. reflexivity. Qed.

Lemma select_One_labelled (df : DataFrame V) (k : string) (s : Series V) :
  select df k = One s -> exists l, labelled k df = [(l, s)].
Proof.
  unfold select. destruct (labelled k df) as [| [l s0] [| c cs]];
    try discriminate. intros [= <-]. exists l. reflexivity.
Qed.

Lemma select_setitem_One (df : DataFrame V) (k : string) (s s' : Series V) :
  select df k = One s -> select (setitem df k [s']) k = One s'.
Proof.
  intros H. apply select_One_labelled in H. destruct H as [l H].
  unfold select. rewrite labelled_setitem_same, H. reflexivity.
Qed.

Variables orig_dict res_dict dtype_map : dict string.

(** An iteration touches only the columns labelled by its key. *)
Lemma cast_step_other (df df' : DataFrame V) (key k : string) :
  cast_step orig_dict res_dict dtype_map df key = Ok df' ->
  k <> key -> labelled k df' = labelled k df.
Proof.
  unfold cast_step, assign_to_datetime, assign_astype. intros H Hk.
  bind_inv H. bind_inv H.
  destruct (negb (String.eqb v v0)); [ | injection H as <-; reflexivity ].
  destruct (String.eqb v "Date"); destruct (select df key); try discriminate;
    repeat bind_inv H; injection H as <-;
    apply labelled_setitem_other, Hk.
Qed.

(** An iteration whose requested category differs from the previous one
    converts the column. *)
Lemma cast_step_converts (df df' : DataFrame V) (key r o : string) (s : Series V) :
  cast_step orig_dict res_dict dtype_map df key = Ok df' ->
  dict_find res_dict key = Some r ->
  dict_find orig_dict key = Some o ->
  r <> o ->
  select df key = One s ->
  exists s', requested_conversion dtype_map r s = Ok s' /\ select df' key = One s'.
Proof.
  unfold cast_step, assign_to_datetime, assign_astype, requested_conversion.
  intros H Hr Ho Hne Hs.
  apply dict_get_Ok in Hr, Ho. rewrite Hr, Ho in H. cbn [bind] in H.
  apply String.eqb_neq in Hne. rewrite Hne in H. cbn [negb] in H.
  rewrite Hs in H. destruct (String.eqb r "Date").
  - bind_inv H. injection H as <-. exists v. split; [ reflexivity | ].
    apply (select_setitem_One _ _ s), Hs.
  - bind_inv H. bind_inv H. injection H as <-. exists v0.
    split; [ exact E0 | ]. apply (select_setitem_One _ _ s), Hs.
Qed.

Lemma cast_loop_app (pre rest : list string) (df : DataFrame V) :
  cast_loop orig_dict res_dict dtype_map (pre ++ rest) df =
  match cast_loop orig_dict res_dict dtype_map pre df with
  | (df1, Ok _) => cast_loop orig_dict res_dict dtype_map rest df1
  | (df1, Err e) => (df1, Err e)
  end.
Proof.
  revert df. induction pre as [| k pre IH]; intros df; cbn.
  - reflexivity.
  - destruct (cast_step orig_dict res_dict dtype_map df k); [ apply IH | reflexivity ].
Qed.

(** The loop leaves alone every column whose label it did not iterate on. *)
Lemma cast_loop_other (ks : list string) (df df1 : DataFrame V) (r : result unit) (k : string) :
  cast_loop orig_dict res_dict dtype_map ks df = (df1, r) ->
  ~ In k ks -> labelled k df1 = labelled k df.
Proof.
  revert df. induction ks as [| k0 ks IH]; intros df H Hk; cbn in H.
  - injection H as <- _. reflexivity.
  - destruct (cast_step orig_dict res_dict dtype_map df k0) as [df' | e] eqn:Es.
    + rewrite (IH df' H) by (intros Hin; apply Hk; right; exact Hin).
      eapply cast_step_other; [ exact Es | ].
      intros ->. apply Hk. left. reflexivity.
    + injection H as <- _. reflexivity.
Qed.

(** After the loop ran over [ks] without exception, every column it was
    asked to change holds the converted values. *)
Lemma cast_loop_converted (ks : list string) (df df1 : DataFrame V)
  (k r o : string) (s : Series V) :
  cast_loop orig_dict res_dict dtype_map ks df = (df1, Ok tt) ->
  NoDup ks -> In k ks ->
  dict_find res_dict k = Some r ->
  dict_find orig_dict k = Some o ->
  r <> o ->
  select df k = One s ->
  exists s', requested_conversion dtype_map r s = Ok s' /\ select df1 k = One s'.
Proof.
  revert df. induction ks as [| k0 ks IH]; intros df H Hnd Hin Hr Ho Hne Hs.
  - destruct Hin.
  - cbn in H. inversion Hnd as [| ? ? Hk0 Hnd']; subst.
    destruct (cast_step orig_dict res_dict dtype_map df k0) as [df' | e] eqn:Es;
      [ | discriminate H ].
    destruct Hin as [-> | Hin].
    + destruct (cast_step_converts _ _ _ _ _ _ Es Hr Ho Hne Hs) as (s' & Hc & Hs').
      exists s'. split; [ exact Hc | ].
      rewrite <- Hs'. apply select_labelled.
      eapply cast_loop_other; eassumption.
    + apply (IH df' H Hnd' Hin Hr Ho Hne).
      rewrite <- Hs. apply select_labelled.
      eapply cast_step_other; [ exact Es | ].
      intros ->. contradiction.
Qed.
End CastFacts.

(** C5 (amended). Requesting for a column the category the previous
    dictionary already records for it converts nothing: the frame is left
    as it is, and the dictionary handed back is the requested one, which is
    the previous dictionary only when that one binds no other column. *)
Theorem cast_dtype_same_category {V : Type} {pandas : Pandas V}
  (df : DataFrame V) (orig_dict dtype_map : dict string) (c cat : string) :
  dict_find orig_dict c = Some cat ->
  cast_dtype df orig_dict [(c, cat)] dtype_map = (df, Ok [(c, cat)]) /\
  (dict_eq [(c, cat)] orig_dict <->
   forall k, k <> c -> dict_find orig_dict k = None).
Proof.
  intros Hc. split.
  - unfold cast_dtype, keys. cbn [map fst cast_loop]. unfold cast_step.
    unfold dict_get at 1. cbn [dict_find]. rewrite String.eqb_refl. cbn [bind].
    apply dict_get_Ok in Hc. rewrite Hc. cbn [bind].
    rewrite String.eqb_refl. reflexivity.
  - unfold dict_eq. cbn [dict_find]. split.
    + intros H k Hk. rewrite <- H.
      apply not_eq_sym, String.eqb_neq in Hk. rewrite Hk. reflexivity.
    + intros H k. destruct (String.eqb c k) eqn:E.
      * apply String.eqb_eq in E. subst k. symmetry. exact Hc.
      * symmetry. apply H. apply String.eqb_neq in E. congruence.
Qed.

Lemma cast_dtype_same_category_witness :
  cast_dtype people people_cats [("city", "Categorical")] cast_map
  = (people, Ok [("city", "Categorical")]).
Proof.
  apply (cast_dtype_same_category people people_cats cast_map
           "city" "Categorical").
  reflexivity.
Defined.

(** C5 (as stated) fails: with the previous dictionary computed from the
    frame by [create_type_df] and [create_type_dict], recasting "city" to
    its own category hands back the one-entry requested dictionary, not the
    previous dictionary, which also records the other columns. *)
Lemma cast_dtype_noop_counterexample :
  (type_df <- create_type_df people dtype_map_inverse ;;
   Ok (create_type_dict type_df)) = Ok people_cats /\
  category_of people dtype_map_inverse "city" = Ok "Categorical" /\
  dict_find people_cats "city" = Some "Categorical" /\
  cast_dtype people people_cats [("city", "Categorical")] cast_map
    = (people, Ok [("city", "Categorical")]) /\
  ~ dict_eq [("city", "Categorical")] people_cats /\
  cast_dtype people people_cats [("city", "Categorical")] cast_map
    <> (people, Ok people_cats).
Proof.
  split; [ reflexivity | ].
  split; [ reflexivity | split; [ reflexivity | split; [ | split ] ] ].
  - vm_compute. reflexivity.
  - intros Heq. specialize (Heq "age"). vm_compute in Heq. discriminate Heq.
  - vm_compute. discriminate.
Qed.

(** C6. When the loop of [cast_dtype] has run over the keys [pre] and the
    iteration on the next key raises, the call raises that exception and
    the caller's frame stays as the loop left it: every column of [pre]
    whose category changed holds its converted values, and no other column
    (the failing one, those after it, those not requested) differs from the
    frame passed in. *)
Theorem cast_dtype_not_atomic {V : Type} {pandas : Pandas V}
  (df df1 : DataFrame V) (orig_dict res_dict dtype_map : dict string)
  (pre post : list string) (key : string) (e : exn) :
  keys res_dict = pre ++ key :: post ->
  NoDup (keys res_dict) ->
  cast_loop orig_dict res_dict dtype_map pre df = (df1, Ok tt) ->
  cast_step orig_dict res_dict dtype_map df1 key = Err e ->
  cast_dtype df orig_dict res_dict dtype_map = (df1, Err e) /\
  (forall k r o s,
      In k pre ->
      dict_find res_dict k = Some r ->
      dict_find orig_dict k = Some o ->
      r <> o ->
      select df k = One s ->
      exists s', requested_conversion dtype_map r s = Ok s' /\
                 select df1 k = One s') /\
  (forall k, In k (key :: post) -> select df1 k = select df k) /\
  (forall k, ~ In k (keys res_dict) -> select df1 k = select df k).
Proof.
  intros Hkeys Hnd Hpre Hfail.
  assert (Hnd' : NoDup pre /\ forall k, In k (key :: post) -> ~ In k pre).
  { rewrite Hkeys in Hnd. clear - Hnd.
    induction pre as [| p pre IH]; cbn in Hnd.
    - split; [ constructor | intros k _ [] ].
    - inversion Hnd as [| ? ? Hp Hnd']; subst. destruct (IH Hnd') as [IH1 IH2].
      split.
      + constructor; [ | exact IH1 ].
        intros Hin. apply Hp, in_or_app. left. exact Hin.
      + intros k Hk [-> | Hin]; [ | exact (IH2 k Hk Hin) ].
        apply Hp, in_or_app. right. exact Hk. }
  destruct Hnd' as [Hndpre Hdisj].
  split; [ | split; [ | split ] ].
  - unfold cast_dtype. rewrite Hkeys, cast_loop_app, Hpre. cbn [cast_loop].
    rewrite Hfail. reflexivity.
  - intros k r o s Hin Hr Ho Hne Hs.
    eapply cast_loop_converted; eassumption.
  - intros k Hk. apply select_labelled.
    eapply cast_loop_other; [ exact Hpre | apply Hdisj, Hk ].
  - intros k Hk. apply select_labelled.
    eapply cast_loop_other; [ exact Hpre | ].
    intros Hin. apply Hk. rewrite Hkeys. apply in_or_app. left. exact Hin.
Qed.

(** Requesting Categorical for "age", Date for "city" and Categorical for
    "weight": "age" is converted, the date parse of "city" raises, "weight"
    is never reached. *)
Lemma cast_dtype_not_atomic_witness :
  cast_dtype people people_cats
    [("age", "Categorical"); ("city", "Date"); ("weight", "Categorical")] cast_map
  = ([("age",    {| dtype := "object";  values := ["30"; "41"; "25"] |});
      ("city",   {| dtype := "object";  values := ["B"; "A"; "C"] |});
      ("weight", {| dtype := "float64"; values := ["70"; "82"; "64"] |});
      ("eight",  {| dtype := "object";  values := ["x"; "y"; "x"] |})],
     Err ValueError).
Proof.
  apply (cast_dtype_not_atomic people _ people_cats
           [("age", "Categorical"); ("city", "Date"); ("weight", "Categorical")]
           cast_map ["age"] ["weight"] "city" ValueError).
  - reflexivity.
  - cbn. repeat constructor; cbn; intros H;
      repeat (destruct H as [H | H]; [ discriminate H | ]); exact H.
  - vm_compute. reflexivity.
  - vm_compute. reflexivity.
Defined.

(** ** Dispatch *)

(** C4. For a strategy name other than One-Hot, Target and Ordinal,
    [create_encoded_column] raises at once, whatever the data: no branch
    binds [encoded_column], no encoder runs, and the [return] raises
    [UnboundLocalError] to the caller. *)
Theorem create_encoded_column_unknown {V num : Type} {cell : Cell V}
  {sklearn : Sklearn V num}
  (encoding x_column : string) (df : DataFrame V) (target_column y_type : string) :
  encoding <> "One-Hot" -> encoding <> "Target" -> encoding <> "Ordinal" ->
  create_encoded_column (num := num) encoding x_column df target_column y_type
  = Err UnboundLocalError.
Proof.
  intros H1 H2 H3. unfold create_encoded_column.
  apply String.eqb_neq in H1, H2, H3. rewrite H1, H2, H3. reflexivity.
Qed.

Lemma create_encoded_column_unknown_witness :
  create_encoded_column (num := Z) "One-hot" "city" people "weight" "Numeric"
  = Err UnboundLocalError.
Proof.
  apply create_encoded_column_unknown; discriminate.
Defined.

(** ** Feature assembler *)

Lemma columns_drop {A : Type} (label : string) (frame : Frame A) :
  ~ In label (columns (drop label frame)).
Proof.
  unfold columns, drop. intros H. apply in_map_iff in H.
  destruct H as (c & Hc & Hin). apply filter_In in Hin. destruct Hin as [_ Hin].
  rewrite <- Hc, String.eqb_refl in Hin. discriminate Hin.
Qed.

(** C1. Whenever [create_model_df] returns a feature matrix, none of its
    columns carries the target variable's name. *)
Theorem create_model_df_excludes_target {V num : Type} {cell : Cell V}
  {sklearn : Sklearn V num}
  (res_df : list encoding_row) (df : DataFrame V)
  (target_var y_type : string) (dtype_map : dict string)
  (model_df : Frame (feature V num)) :
  create_model_df res_df df target_var y_type dtype_map = Ok model_df ->
  ~ In target_var (columns model_df).
Proof.
  unfold create_model_df. intros H. repeat bind_inv H.
  destruct (existsb (String.eqb target_var) (columns v2)) eqn:Ex;
    injection H as <-.
  - apply columns_drop.
  - intros Hin. apply Bool.not_true_iff_false in Ex. apply Ex.
    apply existsb_exists. exists target_var. split; [ exact Hin | ].
    apply String.eqb_refl.
Qed.

(** The example of the specification: age, city, weight, target "weight",
    "city" one-hot encoded. *)
Lemma create_model_df_excludes_target_witness :
  exists model_df : Frame (feature string Z),
    create_model_df city_one_hot people "weight" "Numeric" dtype_map_inverse
      = Ok model_df /\
    columns model_df = ["age"; "city_one_hot_B"; "city_one_hot_C"] /\
    ~ In "weight" (columns model_df).
Proof.
  eexists. split; [ vm_compute; reflexivity | ].
  split; [ reflexivity | ].
  apply (create_model_df_excludes_target city_one_hot people "weight" "Numeric"
           dtype_map_inverse).
  vm_compute. reflexivity.
Defined.

(** ** Dimensionality reduction *)

(** C7. [create_pca_after] raises (the [ValueError] of scikit-learn's
    validation) whenever more components are requested than the feature
    matrix has columns. *)
Theorem create_pca_after_component_count {V num : Type} {sklearn : Sklearn V num}
  (df : Frame num) (n_comp : Z) :
  (Z.of_nat (List.length df) < n_comp)%Z ->
  create_pca_after df n_comp = Err ValueError.
Proof.
  intros Hn. unfold create_pca_after, StandardScaler_fit_transform, to_numpy.
  cbn [rows ncols].
  destruct (rows_of (map snd df)) as [| r rs]; [ reflexivity | ].
  destruct (List.length df) as [| n] eqn:El; [ reflexivity | ].
  cbn [bind]. unfold PCA_fit_transform. cbn [rows ncols].
  replace (n_comp <=? _)%Z with false; [ rewrite andb_false_r; reflexivity | ].
  symmetry. apply Z.leb_gt. lia.
Qed.

(** Five components requested on three features. *)
Lemma create_pca_after_component_count_witness :
  create_pca_after three_features 5 = Err ValueError.
Proof.
  apply create_pca_after_component_count. cbn. lia.
Defined.

(** ** Categories of an encoder *)

Section CategoryFacts.
Context {V : Type} {cell : Cell V}.

Lemma cell_eqb_refl (v : V) : cell_eqb v v = true.
Proof. apply cell_eqb_spec. reflexivity. Qed.

Lemma cell_eqb_false (a b : V) : cell_eqb a b = false <-> a <> b.
Proof.
  rewrite <- cell_eqb_spec. destruct (cell_eqb a b); split; congruence.
Qed.

Lemma distinct_In (vs : list V) (a : V) : In a (distinct vs) <-> In a vs.
Proof.
  induction vs as [| v vs IH]; cbn; [ tauto | ].
  rewrite filter_In, IH. split.
  - intros [H | [H _]]; [ left | right ]; assumption.
  - intros [H | H]; [ left; assumption | ].
    destruct (cell_eqb v a) eqn:E.
    + left. apply cell_eqb_spec, E.
    + right. split; [ assumption | reflexivity ].
Qed.

Lemma distinct_NoDup (vs : list V) : NoDup (distinct vs).
Proof.
  induction vs as [| v vs IH]; cbn; constructor.
  - rewrite filter_In, cell_eqb_refl. intros [_ H]. discriminate H.
  - apply NoDup_filter, IH.
Qed.

Lemma insert_perm (v : V) (l : list V) : Permutation (insert v l) (v :: l).
Proof.
  induction l as [| x l IH]; cbn; [ reflexivity | ].
  destruct (cell_leb v x); [ reflexivity | ].
  rewrite IH. apply perm_swap.
Qed.

Lemma unique_perm (vs : list V) : Permutation (unique vs) (distinct vs).
Proof.
  unfold unique. induction (distinct vs) as [| v l IH]; cbn; [ reflexivity | ].
  rewrite insert_perm, IH. reflexivity.
Qed.

Lemma unique_length (vs : list V) : List.length (unique vs) = n_distinct vs.
Proof. apply Permutation_length, unique_perm. Qed.

Lemma unique_NoDup (vs : list V) : NoDup (unique vs).
Proof.
  eapply Permutation_NoDup; [ symmetry; apply unique_perm | apply distinct_NoDup ].
Qed.

Lemma unique_In (vs : list V) (a : V) : In a (unique vs) <-> In a vs.
Proof.
  split; intros H.
  - apply distinct_In. eapply Permutation_in; [ apply unique_perm | exact H ].
  - apply distinct_In in H.
    eapply Permutation_in; [ symmetry; apply unique_perm | exact H ].
Qed.




End CategoryFacts.

(** ** One-hot encoding *)



(** ** Target encoding *)

(** C2 (amended). For a target that is not Numeric and holds class labels,
    on data the encoder accepts and its five-fold cross-fitting can split
    (at least five rows, and a class with at least five members), target
    encoding returns one column named [<col>_target] when the target has
    exactly two classes, and one column per class, named
    [<col>_target_<class>] for the sorted classes, when it has more than
    two: as many output columns, and names, as classes. *)
Theorem tartet_encoding_columns {V num : Type} {cell : Cell V}
  {sklearn : Sklearn V num}
  (df : DataFrame V) (x_column target_column coltype : string) (X y : list V) :
  coltype <> "Numeric" ->
  values_reshape df x_column = Ok X ->
  target_values df target_column = Ok y ->
  te_fit_check None X y = true ->
  cross_fitting_check (type_of_target y) X y = true ->
  existsb cell_fractional y = false ->
  (n_distinct y = 2 ->
   exists encoded_column : ndarray num,
     tartet_encoding df x_column target_column coltype
       = Ok (encoded_column, Single (x_column ++ "_target")) /\
     ncols encoded_column = 1 /\
     List.length (rows encoded_column) = List.length X /\
     Forall (fun row => List.length row = 1) (rows encoded_column)) /\
  (2 < n_distinct y ->
   exists encoded_column : ndarray num,
     tartet_encoding df x_column target_column coltype
       = Ok (encoded_column,
             Multi (map (fun cat => x_column ++ "_target_" ++ cell_str cat)%string
                        (unique y))) /\
     List.length (unique y) = n_distinct y /\
     ncols encoded_column = n_distinct y /\
     List.length (rows encoded_column) = List.length X /\
     Forall (fun row => List.length row = n_distinct y) (rows encoded_column)).
Proof.
  intros Hcol HX Hy Hfit Hcross Hfrac.
  unfold tartet_encoding. rewrite HX. cbn [bind].
  apply String.eqb_neq in Hcol. rewrite Hcol, Hy. cbn [bind].
  unfold TargetEncoder_fit_transform. cbv zeta. rewrite Hfit, Hcross. cbn [andb].
  unfold type_of_target. rewrite Hfrac.
  split; intros Hk.
  - replace (Nat.ltb 2 (n_distinct y)) with false
      by (symmetry; apply Nat.ltb_ge; lia).
    cbn [bind target_type_]. eexists. split; [ reflexivity | ]. cbn [ncols rows].
    split; [ reflexivity | ].
    split; [ rewrite length_map, length_seq; reflexivity | ].
    apply Forall_forall. intros row Hrow. apply in_map_iff in Hrow.
    destruct Hrow as (i & <- & _). reflexivity.
  - replace (Nat.ltb 2 (n_distinct y)) with true
      by (symmetry; apply Nat.ltb_lt; lia).
    cbn [bind target_type_ classes_]. eexists. split; [ reflexivity | ].
    cbn [ncols rows]. rewrite unique_length.
    split; [ reflexivity | ]. split; [ reflexivity | ].
    split; [ rewrite length_map, length_seq; reflexivity | ].
    apply Forall_forall. intros row Hrow. apply in_map_iff in Hrow.
    destruct Hrow as (i & <- & _). rewrite length_map. apply unique_length.
Qed.

(** On seven rows, encoding "city" against the two-class target "smoker"
    gives the single column [city_target]; against the three-class target
    "drink" it gives one column per drink. *)
Lemma tartet_encoding_columns_witness :
  (exists arr : ndarray Z,
      tartet_encoding drinkers "city" "smoker" "Categorical"
        = Ok (arr, Single "city_target") /\ ncols arr = 1) /\
  (exists arr : ndarray Z,
      tartet_encoding drinkers "city" "drink" "Categorical"
        = Ok (arr, Multi ["city_target_beer"; "city_target_none"; "city_target_wine"]) /\
      ncols arr = 3).
Proof.
  split.
  - destruct (tartet_encoding_columns (num := Z) drinkers "city" "smoker" "Categorical"
                ["B"; "A"; "C"; "A"; "B"; "A"; "C"]
                ["yes"; "yes"; "no"; "yes"; "yes"; "yes"; "no"]) as [H _];
      [ discriminate | reflexivity | reflexivity | reflexivity | reflexivity
      | reflexivity | ].
    destruct (H eq_refl) as (arr & Ha & Hn & _).
    exists arr. split; assumption.
  - destruct (tartet_encoding_columns (num := Z) drinkers "city" "drink" "Categorical"
                ["B"; "A"; "C"; "A"; "B"; "A"; "C"]
                ["beer"; "beer"; "wine"; "beer"; "none"; "beer"; "beer"]) as [_ H];
      [ discriminate | reflexivity | reflexivity | reflexivity | reflexivity
      | reflexivity | ].
    destruct H as (arr & Ha & _ & Hn & _); [ vm_compute; lia | ].
    exists arr. split; assumption.
Defined.

(** C2 (as stated) fails.  On the three rows of [people] the encoder
    cannot form its five folds and raises [ValueError], for the two-class
    target "eight" as for the three-class target "city"; and on a
    two-class categorical target holding the numbers 1.5 and 2.5 the
    encoder infers a continuous target and has no classes, so that listing
    them raises [TypeError]. *)
Lemma tartet_encoding_columns_counterexample :
  (category_of people dtype_map_inverse "eight" = Ok "Categorical" /\
   n_distinct ["x"; "y"; "x"] = 2 /\
   tartet_encoding (num := Z) people "city" "eight" "Categorical"
   = Err ValueError) /\
  (category_of people dtype_map_inverse "city" = Ok "Categorical" /\
   n_distinct ["B"; "A"; "C"] = 3 /\
   tartet_encoding (num := Z) people "eight" "city" "Categorical"
   = Err ValueError) /\
  (category_of readings dtype_map_inverse "level" = Ok "Categorical" /\
   n_distinct (cell := tenths_cell) [15; 25; 15; 25; 15]%Z = 2 /\
   tartet_encoding (cell := tenths_cell) (sklearn := counting_sklearn_tenths)
                   readings "site" "level" "Categorical"
   = Err TypeError).
Proof.
  repeat split; vm_compute; reflexivity.
Qed.

(** * Further properties of the module *)

(** ** Dictionaries *)

Lemma dict_find_set {B : Type} (d : dict B) (k k' : string) (v : B) :
  dict_find (dict_set d k v) k' =
  if String.eqb k k' then Some v else dict_find d k'.
Proof.
  induction d as [| [k0 v0] d IH]; cbn.
  - reflexivity.
  - destruct (String.eqb k0 k) eqn:E0; cbn.
    + apply String.eqb_eq in E0. subst k0.
      destruct (String.eqb k k'); reflexivity.
    + destruct (String.eqb k0 k') eqn:E1; [ | exact IH ].
      apply String.eqb_eq in E1. subst k'.
      rewrite String.eqb_sym, E0. reflexivity.
Qed.

Lemma keys_set_fresh {B : Type} (d : dict B) (k : string) (v : B) :
  ~ In k (keys d) -> dict_set d k v = d ++ [(k, v)].
Proof.
  induction d as [| [k0 v0] d IH]; cbn; intros Hk; [ reflexivity | ].
  destruct (String.eqb k0 k) eqn:E0.
  - apply String.eqb_eq in E0. tauto.
  - f_equal. apply IH. tauto.
Qed.

Lemma keys_set_NoDup {B : Type} (d : dict B) (k : string) (v : B) :
  NoDup (keys d) -> NoDup (keys (dict_set d k v)).
Proof.
  induction d as [| [k0 v0] d IH]; cbn; intros Hnd.
  - constructor; [ intros [] | constructor ].
  - inversion Hnd as [| ? ? Hk0 Hnd']; subst.
    destruct (String.eqb k0 k) eqn:E0; cbn.
    + constructor; assumption.
    + constructor; [ | apply IH, Hnd' ].
      intros Hin. apply Hk0. clear - Hin E0.
      induction d as [| [k1 v1] d IH]; cbn in *.
      * destruct Hin as [Hin | []]. subst k0. rewrite String.eqb_refl in E0.
        discriminate E0.
      * destruct (String.eqb k1 k); cbn in Hin; [ exact Hin | ].
        destruct Hin as [Hin | Hin]; [ left; exact Hin | right; exact (IH Hin) ].
Qed.

Lemma dict_find_app {B : Type} (d1 d2 : dict B) (k : string) :
  dict_find (d1 ++ d2) k =
  match dict_find d1 k with
  | Some v => Some v
  | None => dict_find d2 k
  end.
Proof.
  induction d1 as [| [k0 v0] d1 IH]; cbn; [ reflexivity | ].
  destruct (String.eqb k0 k); [ reflexivity | exact IH ].
Qed.

Lemma dict_find_In_keys {B : Type} (d : dict B) (k : string) :
  In k (keys d) <-> exists v, dict_find d k = Some v.
Proof.
  induction d as [| [k0 v0] d IH]; cbn.
  - split; [ intros [] | intros [v H]; discriminate H ].
  - destruct (String.eqb k0 k) eqn:E0.
    + apply String.eqb_eq in E0. split; [ eexists; reflexivity | tauto ].
    + apply String.eqb_neq in E0. rewrite <- IH. tauto.
Qed.

(** The loop of [create_type_dict], from any dictionary built so far. *)
Lemma type_dict_loop_find (rows : list (string * string)) (d : dict string) (k : string) :
  dict_find (fold_left (fun acc row => dict_set acc (fst row) (snd row)) rows d) k =
  match dict_find (rev rows) k with
  | Some v => Some v
  | None => dict_find d k
  end.
Proof.
  revert d. induction rows as [| [k0 v0] rows IH]; intros d; cbn; [ reflexivity | ].
  rewrite IH, dict_find_app, dict_find_set. cbn.
  destruct (dict_find (rev rows) k); [ reflexivity | ].
  destruct (String.eqb k0 k); reflexivity.
Qed.

Lemma type_dict_loop_NoDup (rows : list (string * string)) (d : dict string) :
  NoDup (keys d) ->
  NoDup (keys (fold_left (fun acc row => dict_set acc (fst row) (snd row)) rows d)).
Proof.
  revert d. induction rows as [| [k0 v0] rows IH]; intros d Hd; cbn; [ exact Hd | ].
  apply IH, keys_set_NoDup, Hd.
Qed.

Lemma type_dict_loop_fresh (rows : list (string * string)) (d : dict string) :
  NoDup (keys d ++ keys rows) ->
  fold_left (fun acc row => dict_set acc (fst row) (snd row)) rows d = d ++ rows.
Proof.
  revert d. induction rows as [| [k0 v0] rows IH]; intros d Hnd; cbn.
  - rewrite app_nil_r. reflexivity.
  - cbn in Hnd. rewrite keys_set_fresh.
    + rewrite IH; [ rewrite <- app_assoc; reflexivity | ].
      unfold keys in *. rewrite map_app, <- app_assoc. exact Hnd.
    + apply NoDup_remove_2 in Hnd. intros Hin. apply Hnd, in_or_app. left. exact Hin.
Qed.

(** X1. [create_type_dict] binds every variable of the table to the type of
    its last row, and to nothing else; its keys are distinct. *)
Theorem create_type_dict_last_row (t : type_df) (k : string) :
  dict_find (create_type_dict t) k
    = dict_find (rev (combine (Variable_ t) (Type_ t))) k /\
  NoDup (keys (create_type_dict t)).
Proof.
  unfold create_type_dict. split.
  - rewrite type_dict_loop_find.
    destruct (dict_find (rev _) k); reflexivity.
  - apply type_dict_loop_NoDup. constructor.
Qed.

(** ** Frames with distinct labels *)

Lemma labelled_absent {A : Type} (df : list (string * A)) (k : string) :
  ~ In k (columns df) -> labelled k df = [].
Proof.
  unfold labelled, columns. induction df as [| [k0 a0] df IH]; cbn; intros Hk.
  - reflexivity.
  - destruct (String.eqb k0 k) eqn:E0.
    + apply String.eqb_eq in E0. tauto.
    + apply IH. tauto.
Qed.

Lemma labelled_NoDup {A : Type} (df : list (string * A)) (k : string) (a : A) :
  NoDup (columns df) -> In (k, a) df -> labelled k df = [(k, a)].
Proof.
  unfold labelled, columns. induction df as [| [k0 a0] df IH]; cbn; intros Hnd Hin.
  - destruct Hin.
  - inversion Hnd as [| ? ? Hk0 Hnd']; subst.
    destruct Hin as [Heq | Hin].
    + injection Heq as -> ->. rewrite String.eqb_refl. f_equal.
      apply (labelled_absent df k Hk0).
    + destruct (String.eqb k0 k) eqn:E0.
      * apply String.eqb_eq in E0. subst k0. exfalso. apply Hk0.
        apply in_map_iff. exists (k, a). split; [ reflexivity | exact Hin ].
      * apply IH; assumption.
Qed.

Lemma select_NoDup {V : Type} (df : DataFrame V) (k : string) (s : Series V) :
  NoDup (columns df) -> In (k, s) df -> select df k = One s.
Proof.
  intros Hnd Hin. unfold select. rewrite (labelled_NoDup df k s Hnd Hin).
  reflexivity.
Qed.

Lemma labelled_In {A : Type} (df : list (string * A)) (k : string) (c : string * A) :
  In c (labelled k df) <-> In c df /\ fst c = k.
Proof.
  unfold labelled. rewrite filter_In, String.eqb_eq. tauto.
Qed.


Lemma columns_combine (names : list string) {A : Type} (l : list A) :
  List.length names = List.length l -> columns (combine names l) = names.
Proof.
  unfold columns. revert l. induction names as [| n names IH]; intros [| a l] H;
    cbn in *; try reflexivity; try discriminate.
  f_equal. apply IH. lia.
Qed.

Lemma create_type_df_Ok {V : Type} (df : DataFrame V) (dtype_map : dict string) (t : type_df) :
  create_type_df df dtype_map = Ok t ->
  Variable_ t = columns df /\
  Forall2 (fun col c => dict_find dtype_map (dtype (snd col)) = Some c) df (Type_ t).
Proof.
  unfold create_type_df, dtypes. intros H. bind_inv H. injection H as <-. cbn.
  split; [ reflexivity | ].
  apply comprehension_Ok in E.
  remember (map (fun c => dtype (snd c)) df) as ds eqn:Eds.
  revert df Eds. induction E as [| d c ds ts Hd _ IH]; intros df Eds.
  - destruct df; [ constructor | discriminate ].
  - destruct df as [| col df]; [ discriminate | ].
    cbn in Eds. injection Eds as -> ->.
    constructor; [ apply dict_get_Ok, Hd | apply IH; reflexivity ].
Qed.

Lemma type_table_find {V : Type} (df : DataFrame V) (dtype_map : dict string)
  (ts : list string) (k : string) (s : Series V) :
  Forall2 (fun col c => dict_find dtype_map (dtype (snd col)) = Some c) df ts ->
  NoDup (columns df) ->
  In (k, s) df ->
  dict_find (combine (columns df) ts) k = dict_find dtype_map (dtype s).
Proof.
  induction 1 as [| [k0 s0] c df ts Hc _ IH]; cbn; intros Hnd Hin.
  - destruct Hin.
  - inversion Hnd as [| ? ? Hk0 Hnd']; subst.
    destruct (String.eqb k0 k) eqn:E0.
    + apply String.eqb_eq in E0. subst k0.
      destruct Hin as [Heq | Hin].
      * injection Heq as <-. symmetry. exact Hc.
      * exfalso. apply Hk0. apply in_map_iff. exists (k, s).
        split; [ reflexivity | exact Hin ].
    + destruct Hin as [Heq | Hin].
      * injection Heq as -> _. rewrite String.eqb_refl in E0. discriminate E0.
      * apply IH; assumption.
Qed.

(** X2. For a frame with distinct labels, the dictionary made from the
    table of [create_type_df] lists the columns in frame order, and looking
    a column up in it gives what [find_label_type] computes from the frame. *)
Theorem create_type_dict_of_frame {V : Type} (df : DataFrame V)
  (dtype_map : dict string) (t : type_df) :
  NoDup (columns df) ->
  create_type_df df dtype_map = Ok t ->
  create_type_dict t = combine (columns df) (Type_ t) /\
  keys (create_type_dict t) = columns df /\
  (forall col, In col (columns df) ->
               find_label_type df col dtype_map
               = dict_get (create_type_dict t) col).
Proof.
  intros Hnd Ht. apply create_type_df_Ok in Ht. destruct Ht as [Hv Hts].
  assert (Hlen : List.length (columns df) = List.length (Type_ t)).
  { unfold columns. rewrite length_map. eapply Forall2_length, Hts. }
  assert (Hd : create_type_dict t = combine (columns df) (Type_ t)).
  { unfold create_type_dict. rewrite Hv. rewrite type_dict_loop_fresh; [ reflexivity | ].
    cbn. fold (columns (combine (columns df) (Type_ t))).
    rewrite columns_combine by exact Hlen. exact Hnd. }
  split; [ exact Hd | ]. split.
  - rewrite Hd. apply columns_combine, Hlen.
  - intros col Hin. apply in_map_iff in Hin. destruct Hin as ([k s] & <- & Hin).
    cbn. unfold find_label_type, dtype_of.
    rewrite (select_NoDup df k s Hnd Hin). cbn [bind].
    unfold dict_get. rewrite Hd, (type_table_find df dtype_map _ k s Hts Hnd Hin).
    reflexivity.
Qed.

Lemma create_type_dict_of_frame_witness :
  create_type_dict {| Variable_ := ["age"; "city"; "weight"; "eight"];
                      Type_ := ["Numeric"; "Categorical"; "Numeric"; "Categorical"] |}
    = people_cats /\
  find_label_type people "weight" dtype_map_inverse = Ok "Numeric".
Proof.
  destruct (create_type_dict_of_frame people dtype_map_inverse
              {| Variable_ := ["age"; "city"; "weight"; "eight"];
                 Type_ := ["Numeric"; "Categorical"; "Numeric"; "Categorical"] |})
    as (Hd & _ & Hf).
  - cbn. repeat constructor; cbn; intros H;
      repeat (destruct H as [H | H]; [ discriminate H | ]); exact H.
  - reflexivity.
  - split; [ rewrite Hd; reflexivity | ].
    rewrite Hf by (cbn; tauto). rewrite Hd. reflexivity.
Defined.

(** ** More on the type caster *)

Section CastMore.
Context {V : Type} {pandas : Pandas V}.

Lemma columns_setitem (df : DataFrame V) (key : string) (new : list (Series V)) :
  columns (setitem df key new) = columns df.
Proof.
  unfold columns. revert new. induction df as [| [k s] df IH]; intros new; cbn.
  - reflexivity.
  - destruct (String.eqb k key); [ destruct new | ]; cbn; f_equal; apply IH.
Qed.

Variables orig_dict res_dict dtype_map : dict string.

Lemma cast_step_columns (df df' : DataFrame V) (key : string) :
  cast_step orig_dict res_dict dtype_map df key = Ok df' ->
  columns df' = columns df.
Proof.
  unfold cast_step, assign_to_datetime, assign_astype. intros H.
  bind_inv H. bind_inv H.
  destruct (negb (String.eqb v v0)); [ | injection H as <-; reflexivity ].
  destruct (String.eqb v "Date"); destruct (select df key); try discriminate;
    repeat bind_inv H; injection H as <-; apply columns_setitem.
Qed.

Lemma cast_loop_columns (ks : list string) (df : DataFrame V) :
  columns (fst (cast_loop orig_dict res_dict dtype_map ks df)) = columns df.
Proof.
  revert df. induction ks as [| k ks IH]; intros df; cbn; [ reflexivity | ].
  destruct (cast_step orig_dict res_dict dtype_map df k) as [df' | e] eqn:Es;
    [ | reflexivity ].
  rewrite IH. eapply cast_step_columns, Es.
Qed.

Lemma cast_step_same (df : DataFrame V) (key r : string) :
  dict_find res_dict key = Some r ->
  dict_find orig_dict key = Some r ->
  cast_step orig_dict res_dict dtype_map df key = Ok df.
Proof.
  intros Hr Ho. unfold cast_step. apply dict_get_Ok in Hr, Ho.
  rewrite Hr, Ho. cbn [bind]. rewrite String.eqb_refl. reflexivity.
Qed.

Lemma cast_loop_same (ks : list string) (df : DataFrame V) :
  (forall k, In k ks ->
             exists r, dict_find res_dict k = Some r /\ dict_find orig_dict k = Some r) ->
  cast_loop orig_dict res_dict dtype_map ks df = (df, Ok tt).
Proof.
  induction ks as [| k ks IH]; intros H; cbn; [ reflexivity | ].
  destruct (H k (or_introl eq_refl)) as (r & Hr & Ho).
  rewrite (cast_step_same df k r Hr Ho). apply IH.
  intros k' Hk'. apply H. right. exact Hk'.
Qed.

(** The loop leaves alone the columns whose requested category is the
    previous one. *)
Lemma cast_loop_untouched (ks : list string) (df df1 : DataFrame V)
  (res : result unit) (k r : string) :
  cast_loop orig_dict res_dict dtype_map ks df = (df1, res) ->
  dict_find res_dict k = Some r ->
  dict_find orig_dict k = Some r ->
  labelled k df1 = labelled k df.
Proof.
  intros H Hr Ho. revert df H. induction ks as [| k0 ks IH]; intros df H; cbn in H.
  - injection H as <- _. reflexivity.
  - destruct (cast_step orig_dict res_dict dtype_map df k0) as [df' | e] eqn:Es.
    + rewrite (IH df' H).
      destruct (String.eqb k0 k) eqn:E0.
      * apply String.eqb_eq in E0. subst k0.
        rewrite (cast_step_same df k r Hr Ho) in Es. injection Es as <-. reflexivity.
      * eapply cast_step_other; [ exact Es | ].
        apply String.eqb_neq in E0. congruence.
    + injection H as <- _. reflexivity.
Qed.

(** An iteration that raises whatever the values of the frame makes the
    whole loop raise. *)
Lemma cast_loop_raises (ks : list string) (df : DataFrame V) (key : string) :
  In key ks ->
  (forall df', columns df' = columns df ->
               is_err (cast_step orig_dict res_dict dtype_map df' key)) ->
  is_err (snd (cast_loop orig_dict res_dict dtype_map ks df)).
Proof.
  revert df. induction ks as [| k ks IH]; intros df Hin Hfail; [ destruct Hin | ].
  cbn. destruct (cast_step orig_dict res_dict dtype_map df k) as [df' | e] eqn:Es.
  - destruct Hin as [-> | Hin].
    + destruct (Hfail df eq_refl) as [e He]. congruence.
    + apply IH; [ exact Hin | ].
      intros df'' Hc. apply Hfail. rewrite Hc. eapply cast_step_columns, Es.
  - exists e. reflexivity.
Qed.
End CastMore.

(** X3. [cast_dtype] never adds, removes, renames or reorders columns:
    whether it returns or raises, the caller's frame has the labels it had. *)
Theorem cast_dtype_keeps_labels {V : Type} {pandas : Pandas V}
  (df : DataFrame V) (orig_dict res_dict dtype_map : dict string) :
  columns (fst (cast_dtype df orig_dict res_dict dtype_map)) = columns df.
Proof.
  unfold cast_dtype.
  pose proof (cast_loop_columns orig_dict res_dict dtype_map (keys res_dict) df) as H.
  destruct (cast_loop orig_dict res_dict dtype_map (keys res_dict) df) as [df' r].
  exact H.
Qed.

(** X4. A request that asks, for each of its columns, the category the
    previous dictionary records converts nothing, whatever the frame and
    the type map: the frame is as it was and the request is handed back. *)
Theorem cast_dtype_unchanged_request {V : Type} {pandas : Pandas V}
  (df : DataFrame V) (orig_dict res_dict dtype_map : dict string) :
  (forall k, In k (keys res_dict) -> dict_find orig_dict k = dict_find res_dict k) ->
  cast_dtype df orig_dict res_dict dtype_map = (df, Ok res_dict).
Proof.
  intros H. unfold cast_dtype. rewrite cast_loop_same; [ reflexivity | ].
  intros k Hk. pose proof (H k Hk) as Ho.
  apply dict_find_In_keys in Hk. destruct Hk as [r Hr].
  exists r. split; [ exact Hr | congruence ].
Qed.

Lemma cast_dtype_unchanged_request_witness :
  cast_dtype people people_cats people_cats cast_map = (people, Ok people_cats).
Proof.
  apply cast_dtype_unchanged_request. intros k _. reflexivity.
Defined.

(** X5. When [cast_dtype] returns, it hands back the requested dictionary;
    every requested column whose category changed holds its converted
    values, and every other column of the frame is as it was. *)
Theorem cast_dtype_success {V : Type} {pandas : Pandas V}
  (df df' : DataFrame V) (orig_dict res_dict dtype_map d : dict string) :
  NoDup (keys res_dict) ->
  cast_dtype df orig_dict res_dict dtype_map = (df', Ok d) ->
  d = res_dict /\
  (forall k, In k (keys res_dict) -> In k (keys orig_dict)) /\
  (forall k r o s,
      dict_find res_dict k = Some r ->
      dict_find orig_dict k = Some o ->
      r <> o ->
      select df k = One s ->
      exists s', requested_conversion dtype_map r s = Ok s' /\
                 select df' k = One s') /\
  (forall k r,
      dict_find res_dict k = Some r ->
      dict_find orig_dict k = Some r ->
      select df' k = select df k) /\
  (forall k, ~ In k (keys res_dict) -> select df' k = select df k).
Proof.
  intros Hnd H. unfold cast_dtype in H.
  destruct (cast_loop orig_dict res_dict dtype_map (keys res_dict) df)
    as [df1 r] eqn:El.
  injection H as -> H. destruct r as [[] | e]; [ | discriminate H ].
  cbn in H. injection H as <-.
  split; [ reflexivity | ]. split; [ | split; [ | split ] ].
  - intros k Hk. apply dict_find_In_keys.
    destruct (dict_find orig_dict k) as [o | ] eqn:Eo; [ eexists; reflexivity | ].
    exfalso.
    assert (Herr : is_err (snd (cast_loop orig_dict res_dict dtype_map (keys res_dict) df))).
    { apply cast_loop_raises with (key := k); [ exact Hk | ].
      intros df0 _. unfold cast_step.
      apply dict_find_In_keys in Hk. destruct Hk as [r Hr].
      apply dict_get_Ok in Hr. rewrite Hr. cbn [bind].
      unfold dict_get. rewrite Eo. cbn. eexists; reflexivity. }
    rewrite El in Herr. destruct Herr as [e He]. discriminate He.
  - intros k r o s Hr Ho Hne Hs.
    eapply cast_loop_converted; try eassumption.
    apply dict_find_In_keys. eexists; exact Hr.
  - intros k r Hr Ho. apply select_labelled.
    eapply cast_loop_untouched; eassumption.
  - intros k Hk. apply select_labelled.
    eapply cast_loop_other; eassumption.
Qed.

(** Requesting Categorical for "age" and for "city": "age" becomes an
    object column, "city" and the unrequested columns stay. *)
Lemma cast_dtype_success_witness :
  exists df',
    cast_dtype people people_cats
      [("age", "Categorical"); ("city", "Categorical")] cast_map
    = (df', Ok [("age", "Categorical"); ("city", "Categorical")]) /\
    select df' "age" = One {| dtype := "object"; values := ["30"; "41"; "25"] |} /\
    select df' "city" = select people "city" /\
    select df' "weight" = select people "weight".
Proof.
  eexists. split; [ vm_compute; reflexivity | ].
  assert (Hnd : NoDup (keys [("age", "Categorical"); ("city", "Categorical")])).
  { cbn. repeat constructor; cbn; intros H;
      repeat (destruct H as [H | H]; [ discriminate H | ]); exact H. }
  destruct (cast_dtype_success (pandas := text_pandas) people _ people_cats
              [("age", "Categorical"); ("city", "Categorical")] cast_map _ Hnd
              ltac:(vm_compute; reflexivity))
    as (_ & _ & Hconv & Hsame & Hother).
  split; [ | split ].
  - assert (Hne : "Categorical" <> "Numeric") by discriminate.
    destruct (Hconv "age" "Categorical" "Numeric"
                {| dtype := "int64"; values := ["30"; "41"; "25"] |}
                eq_refl eq_refl Hne eq_refl)
      as (s' & Hs' & Hsel).
    vm_compute in Hs'. injection Hs' as <-. exact Hsel.
  - apply (Hsame "city" "Categorical"); reflexivity.
  - apply Hother. cbn. intros [H | [H | []]]; discriminate H.
Defined.

(** X6. [cast_dtype] raises when a requested column is unknown to the
    previous dictionary, and when a requested column whose category
    changes is not in the frame. *)
Theorem cast_dtype_unknown_column {V : Type} {pandas : Pandas V}
  (df : DataFrame V) (orig_dict res_dict dtype_map : dict string) (key : string) :
  In key (keys res_dict) ->
  dict_find orig_dict key = None \/
  (dict_find orig_dict key <> dict_find res_dict key /\ ~ In key (columns df)) ->
  is_err (snd (cast_dtype df orig_dict res_dict dtype_map)).
Proof.
  intros Hk Hcase. unfold cast_dtype.
  assert (Herr : is_err (snd (cast_loop orig_dict res_dict dtype_map (keys res_dict) df))).
  { apply cast_loop_raises with (key := key); [ exact Hk | ].
    intros df0 Hc. unfold cast_step.
    apply dict_find_In_keys in Hk. destruct Hk as [r Hr].
    pose proof Hr as Hr'. apply dict_get_Ok in Hr'. rewrite Hr'. cbn [bind].
    unfold dict_get. destruct Hcase as [Ho | [Hne Hnot]].
    - rewrite Ho. cbn. eexists; reflexivity.
    - destruct (dict_find orig_dict key) as [o | ]; [ | eexists; reflexivity ].
      cbn [bind]. rewrite Hr in Hne.
      assert (E : String.eqb r o = false)
        by (apply String.eqb_neq; congruence).
      rewrite E. cbn [negb].
      unfold assign_to_datetime, assign_astype, select.
      rewrite labelled_absent by (rewrite Hc; exact Hnot).
      destruct (String.eqb r "Date"); eexists; reflexivity. }
  destruct (cast_loop orig_dict res_dict dtype_map (keys res_dict) df) as [df1 r].
  cbn in *. destruct Herr as [e ->]. exists e. reflexivity.
Qed.

Lemma cast_dtype_unknown_column_witness :
  snd (cast_dtype people people_cats [("height", "Numeric")] cast_map)
  = Err KeyError.
Proof.
  destruct (cast_dtype_unknown_column people people_cats
              [("height", "Numeric")] cast_map "height") as [e He].
  - cbn. tauto.
  - left. reflexivity.
  - vm_compute. reflexivity.
Defined.

(** ** More on the encodable columns *)

Lemma comprehension_if_all_Ok {A : Type} (p : A -> result bool) (l : list A) :
  (forall a, In a l -> exists b, p a = Ok b) ->
  exists r, comprehension_if p l = Ok r.
Proof.
  induction l as [| a l IH]; intros H; cbn.
  - eexists; reflexivity.
  - destruct (H a (or_introl eq_refl)) as [b Hb]. rewrite Hb. cbn.
    destruct IH as [r Hr]; [ intros a' Ha'; apply H; right; exact Ha' | ].
    rewrite Hr. cbn. eexists; reflexivity.
Qed.

Lemma comprehension_if_filter {A : Type} (p : A -> result bool) (l r : list A) :
  comprehension_if p l = Ok r ->
  r = filter (fun a => match p a with Ok true => true | _ => false end) l.
Proof.
  revert r. induction l as [| a l IH]; intros r H; cbn in H.
  - injection H as <-. reflexivity.
  - bind_inv H. bind_inv H. injection H as <-. cbn. rewrite E.
    rewrite <- (IH v0 eq_refl). destruct v; reflexivity.
Qed.

Lemma labelled_le_one_NoDup {A : Type} (df : list (string * A)) :
  (forall k, In k (columns df) -> List.length (labelled k df) <= 1) ->
  NoDup (columns df).
Proof.
  induction df as [| [k0 a0] df IH]; cbn; intros H; constructor.
  - intros Hin. specialize (H k0 (or_introl eq_refl)).
    unfold labelled in H. cbn in H. rewrite String.eqb_refl in H. cbn in H.
    apply in_map_iff in Hin. destruct Hin as ([k a] & Hk & Hin). cbn in Hk. subst k.
    assert (Hl : In (k0, a) (labelled k0 df))
      by (apply labelled_In; split; [ exact Hin | reflexivity ]).
    unfold labelled in Hl. destruct (filter _ df); [ destruct Hl | cbn in H; lia ].
  - apply IH. intros k Hk. specialize (H k (or_intror Hk)).
    unfold labelled in *. cbn in H. destruct (String.eqb k0 k); cbn in H; lia.
Qed.

Lemma dtype_of_Ok {V : Type} (df : DataFrame V) (k d : string) :
  dtype_of df k = Ok d <-> exists s, select df k = One s /\ dtype s = d.
Proof.
  unfold dtype_of. destruct (select df k) as [| s | l]; split.
  - discriminate.
  - intros (s & H & _). discriminate H.
  - intros [= <-]. exists s. split; reflexivity.
  - intros (s' & [= <-] & <-). reflexivity.
  - discriminate.
  - intros (s & H & _). discriminate H.
Qed.

Lemma dtype_of_all_NoDup {V : Type} (df : DataFrame V) :
  (forall k, In k (columns df) -> exists d, dtype_of df k = Ok d) ->
  NoDup (columns df).
Proof.
  intros H. apply labelled_le_one_NoDup. intros k Hk.
  destruct (H k Hk) as [d Hd]. apply dtype_of_Ok in Hd.
  destruct Hd as (s & Hs & _). apply select_One_labelled in Hs.
  destruct Hs as [l ->]. cbn. lia.
Qed.

Lemma starts_with_refl (s : string) : starts_with s s = true.
Proof.
  induction s as [| a s IH]; cbn; [ reflexivity | ].
  rewrite Ascii.eqb_refl. exact IH.
Qed.

Lemma str_in_refl (s : string) : str_in s s = true.
Proof.
  destruct s; cbn; [ reflexivity | ].
  rewrite Ascii.eqb_refl, starts_with_refl. reflexivity.
Qed.

Lemma str_in_empty (s : string) : str_in EmptyString s = true.
Proof. destruct s; reflexivity. Qed.

Lemma find_valid_cols_Ok_NoDup {V : Type} (df : DataFrame V)
  (target_var : string) (dtype_map : dict string) (valid_cols : list string) :
  find_valid_cols df target_var dtype_map = Ok valid_cols ->
  NoDup (columns df).
Proof.
  unfold find_valid_cols. intros H.
  apply comprehension_if_Ok in H. destruct H as [Hall _].
  apply dtype_of_all_NoDup. intros k Hk. destruct (Hall k Hk) as [b Hb].
  destruct (dtype_of df k) as [d | ]; [ eexists; reflexivity | discriminate Hb ].
Qed.

(** X7. [find_valid_cols] returns exactly for the frames whose labels are
    distinct and whose storage types are all known to the type map;
    otherwise it raises. *)
Theorem find_valid_cols_returns_iff {V : Type} (df : DataFrame V)
  (target_var : string) (dtype_map : dict string) :
  (exists valid_cols, find_valid_cols df target_var dtype_map = Ok valid_cols) <->
  NoDup (columns df) /\ covers dtype_map df.
Proof.
  split.
  - intros [l H]. pose proof (find_valid_cols_Ok_NoDup _ _ _ _ H) as Hnd.
    unfold find_valid_cols in H.
    apply comprehension_if_Ok in H. destruct H as [Hall _].
    split; [ exact Hnd | ].
    intros [k s] Hin. cbn.
    destruct (Hall k) as [b Hb].
    { apply in_map_iff. exists (k, s). split; [ reflexivity | exact Hin ]. }
    unfold dtype_of in Hb. rewrite (select_NoDup df k s Hnd Hin) in Hb.
    cbn [bind] in Hb. unfold dict_get in Hb.
    destruct (dict_find dtype_map (dtype s)); [ discriminate | discriminate Hb ].
  - intros [Hnd Hcov]. unfold find_valid_cols. apply comprehension_if_all_Ok.
    intros k Hk. apply in_map_iff in Hk. destruct Hk as ([k' s] & <- & Hin). cbn.
    unfold dtype_of. rewrite (select_NoDup df k' s Hnd Hin). cbn [bind].
    specialize (Hcov _ Hin). cbn in Hcov. unfold dict_get.
    destruct (dict_find dtype_map (dtype s)); [ | congruence ].
    cbn. eexists; reflexivity.
Qed.

Lemma people_labels : NoDup (columns people).
Proof.
  cbn. repeat constructor; cbn; intros H;
    repeat (destruct H as [H | H]; [ discriminate H | ]); exact H.
Qed.

(** A second "city" column makes [find_valid_cols] raise. *)
Lemma find_valid_cols_returns_iff_witness :
  (exists valid_cols,
      find_valid_cols people "weight" dtype_map_inverse = Ok valid_cols) /\
  find_valid_cols (("city", {| dtype := "object"; values := ["Z"; "Q"; "Z"] |}) :: people)
                  "weight" dtype_map_inverse = Err AttributeError.
Proof.
  split.
  - apply (find_valid_cols_returns_iff people "weight" dtype_map_inverse).
    split; [ exact people_labels | exact people_covered ].
  - vm_compute. reflexivity.
Defined.

(** X8. The list [find_valid_cols] returns never holds the target variable
    nor an empty label, has no duplicates, and keeps the frame's column
    order. *)
Theorem find_valid_cols_result {V : Type} (df : DataFrame V)
  (target_var : string) (dtype_map : dict string) (valid_cols : list string) :
  find_valid_cols df target_var dtype_map = Ok valid_cols ->
  ~ In target_var valid_cols /\
  ~ In EmptyString valid_cols /\
  NoDup valid_cols /\
  exists keep, valid_cols = filter keep (columns df).
Proof.
  intros H. pose proof (find_valid_cols_Ok_NoDup _ _ _ _ H) as Hnd.
  unfold find_valid_cols in H.
  pose proof (comprehension_if_filter _ _ _ H) as Hf.
  apply comprehension_if_Ok in H. destruct H as [_ H].
  assert (Hout : forall col, str_in col target_var = true -> ~ In col valid_cols).
  { intros col Hs Hin. apply H in Hin. destruct Hin as [_ Hp].
    destruct (dtype_of df col); cbn in Hp; [ | discriminate Hp ].
    destruct (dict_get dtype_map a); cbn in Hp; [ | discriminate Hp ].
    rewrite Hs, andb_false_r in Hp. discriminate Hp. }
  split; [ apply Hout, str_in_refl | ].
  split; [ apply Hout, str_in_empty | ].
  split.
  - rewrite Hf. apply NoDup_filter, Hnd.
  - eexists. exact Hf.
Qed.

Lemma find_valid_cols_result_witness :
  ~ In "weight" ["city"] /\ NoDup ["city"].
Proof.
  destruct (find_valid_cols_result people "weight" dtype_map_inverse ["city"])
    as (Ht & _ & Hnd & _); [ vm_compute; reflexivity | ].
  split; assumption.
Defined.

(** ** More on one-hot and ordinal encoding *)

Section EncodingFacts.
Context {V : Type} {cell : Cell V}.

(** Two observed values with the same indicator row are the same value. *)
Lemma indicators_inj (reference v w : V) (others : list V) :
  NoDup (reference :: others) ->
  In v (reference :: others) -> In w (reference :: others) ->
  map (fun c => if cell_eqb v c then 1 else 0)%Z others
  = map (fun c => if cell_eqb w c then 1 else 0)%Z others ->
  v = w.
Proof.
  intros Hnd Hv Hw Heq.
  assert (Hpt : forall c, In c others ->
                          (if cell_eqb v c then 1 else 0)%Z
                          = (if cell_eqb w c then 1 else 0)%Z)
    by (apply map_ext_in_iff; exact Heq).
  inversion Hnd as [| ? ? Hr _]; subst.
  destruct Hv as [<- | Hv].
  - destruct Hw as [<- | Hw]; [ reflexivity | ].
    specialize (Hpt w Hw). rewrite (cell_eqb_refl w) in Hpt.
    destruct (cell_eqb reference w) eqn:E; [ | discriminate Hpt ].
    apply cell_eqb_spec, E.
  - specialize (Hpt v Hv). rewrite (cell_eqb_refl v) in Hpt.
    destruct (cell_eqb w v) eqn:E; [ | discriminate Hpt ].
    symmetry. apply cell_eqb_spec, E.
Qed.

End EncodingFacts.

(** X9. [one_hot_encoding] raises [KeyError] when the source column is
    not in the frame, and the encoder's [ValueError] when the column has no
    row. *)
Theorem one_hot_encoding_raises {V : Type} {cell : Cell V}
  (df : DataFrame V) (x_column : string) :
  (~ In x_column (columns df) -> one_hot_encoding df x_column = Err KeyError) /\
  (values_reshape df x_column = Ok [] ->
   one_hot_encoding df x_column = Err ValueError).
Proof.
  unfold one_hot_encoding. split.
  - intros H. unfold values_reshape, select.
    rewrite (labelled_absent df x_column H). reflexivity.
  - intros ->. reflexivity.
Qed.

Lemma one_hot_encoding_raises_witness :
  one_hot_encoding people "height" = Err KeyError /\
  one_hot_encoding [("city", {| dtype := "object"; values := @nil string |})] "city"
  = Err ValueError.
Proof.
  destruct (one_hot_encoding_raises people "height") as [H1 _].
  destruct (one_hot_encoding_raises
              [("city", {| dtype := "object"; values := @nil string |})] "city")
    as [_ H2].
  split; [ apply H1 | apply H2; reflexivity ].
  cbn. intros H. repeat (destruct H as [H | H]; [ discriminate H | ]). exact H.
Defined.

(** X10. One-hot encoding loses nothing: every row of the returned array is
    the encoding of the value in that row, and two observed values have the
    same encoding only if they are the same value. *)
Theorem one_hot_encoding_lossless {V : Type} {cell : Cell V}
  (df : DataFrame V) (x_column : string) (X : list V)
  (encoded_column : ndarray Z) (names : list string) :
  values_reshape df x_column = Ok X ->
  one_hot_encoding df x_column = Ok (encoded_column, names) ->
  exists encode : V -> list Z,
    rows encoded_column = map encode X /\
    forall v w, In v X -> In w X -> (encode v = encode w <-> v = w).
Proof.
  intros HX H. unfold one_hot_encoding in H. rewrite HX in H. cbn [bind] in H.
  unfold OneHotEncoder_fit_transform in H.
  destruct X as [| x0 X0] eqn:EX; [ discriminate H | ]. rewrite <- EX in *.
  cbn [bind] in H. injection H as <- _. cbn [rows].
  exists (fun v => map (fun c => if cell_eqb v c then 1 else 0)%Z (tl (unique X))).
  split; [ reflexivity | ].
  intros v w Hv Hw. split; [ | intros ->; reflexivity ].
  pose proof (unique_NoDup X) as Hnd.
  apply unique_In in Hv, Hw.
  destruct (unique X) as [| reference others]; [ destruct Hv | ].
  cbn [tl]. apply (indicators_inj reference); assumption.
Qed.

Lemma one_hot_encoding_lossless_witness :
  exists encode : string -> list Z,
    [[1; 0]; [0; 0]; [0; 1]]%Z = map encode ["B"; "A"; "C"] /\
    (encode "B" = encode "C" <-> "B" = "C").
Proof.
  destruct (one_hot_encoding_lossless people "city" ["B"; "A"; "C"]
              {| ncols := 2; rows := [[1; 0]; [0; 0]; [0; 1]]%Z |}
              ["city_one_hot_B"; "city_one_hot_C"])
    as (encode & Hrows & Hinj); [ reflexivity | vm_compute; reflexivity | ].
  exists encode. split; [ exact Hrows | ].
  apply Hinj; cbn; tauto.
Defined.

(** X11. [ordinal_encoding] raises [KeyError] when the source column is
    not in the frame and the encoder's [ValueError] when the column has no
    row.  Whatever it returns is one column named [<col>_ordinal], with one
    single-entry row per row of the source column. *)
Theorem ordinal_encoding_shape {V : Type} {cell : Cell V}
  (df : DataFrame V) (x_column : string) :
  (~ In x_column (columns df) -> ordinal_encoding df x_column = Err KeyError) /\
  (values_reshape df x_column = Ok [] ->
   ordinal_encoding df x_column = Err ValueError) /\
  (forall encoded_column encoded_column_name,
      ordinal_encoding df x_column = Ok (encoded_column, encoded_column_name) ->
      encoded_column_name = Single (x_column ++ "_ordinal") /\
      ncols encoded_column = 1 /\
      Forall (fun row => List.length row = 1) (rows encoded_column) /\
      exists X, values_reshape df x_column = Ok X /\ X <> [] /\
                List.length (rows encoded_column) = List.length X).
Proof.
  unfold ordinal_encoding. split; [ | split ].
  - intros H. unfold values_reshape, select.
    rewrite (labelled_absent df x_column H). reflexivity.
  - intros ->. reflexivity.
  - intros arr name H. bind_inv H. rename v into X.
    unfold OrdinalEncoder_fit_transform in H.
    destruct X as [| x0 X0] eqn:EX; [ discriminate H | ]. rewrite <- EX in *.
    cbn [bind] in H. injection H as <- <-. cbn [ncols rows].
    split; [ reflexivity | ]. split; [ reflexivity | ]. split.
    + apply Forall_forall. intros row Hrow. apply in_map_iff in Hrow.
      destruct Hrow as (v & <- & _). reflexivity.
    + exists X. split; [ reflexivity | ]. split; [ congruence | ].
      apply length_map.
Qed.

Lemma ordinal_encoding_shape_witness :
  exists arr,
    ordinal_encoding people "city" = Ok (arr, Single "city_ordinal") /\
    ncols arr = 1 /\ List.length (rows arr) = 3.
Proof.
  destruct (ordinal_encoding people "city") as [[arr name] | e] eqn:E;
    [ | discriminate E ].
  destruct (ordinal_encoding_shape people "city") as (_ & _ & H).
  destruct (H arr name E) as (-> & Hn & _ & X & HX & _ & Hl).
  exists arr. split; [ reflexivity | ]. split; [ exact Hn | ].
  vm_compute in HX. injection HX as <-. exact Hl.
Defined.

(** ** More on target encoding *)

(** X12. Against a target passed as Numeric, on data the encoder accepts
    and can split into its five folds (at least five rows),
    [tartet_encoding] returns one column named [<col>_target], with one row
    per row of the source column, however many distinct values the target
    has. *)
Theorem tartet_encoding_numeric {V num : Type} {cell : Cell V}
  {sklearn : Sklearn V num}
  (df : DataFrame V) (x_column target_column : string) (X y : list V) :
  values_reshape df x_column = Ok X ->
  target_values df target_column = Ok y ->
  te_fit_check (Some continuous) X y = true ->
  cross_fitting_check continuous X y = true ->
  exists encoded_column : ndarray num,
    tartet_encoding df x_column target_column "Numeric"
      = Ok (encoded_column, Single (x_column ++ "_target")) /\
    ncols encoded_column = 1 /\
    List.length (rows encoded_column) = List.length X /\
    Forall (fun row => List.length row = 1) (rows encoded_column).
Proof.
  intros HX Hy Hfit Hcross. unfold tartet_encoding. rewrite HX. cbn [bind].
  rewrite String.eqb_refl, Hy. cbn [bind].
  unfold TargetEncoder_fit_transform. cbv zeta. rewrite Hfit, Hcross. cbn [andb bind].
  eexists. split; [ reflexivity | ]. cbn [ncols rows].
  split; [ reflexivity | ].
  split; [ rewrite length_map, length_seq; reflexivity | ].
  apply Forall_forall. intros row Hrow. apply in_map_iff in Hrow.
  destruct Hrow as (i & <- & _). reflexivity.
Qed.

Lemma tartet_encoding_numeric_witness :
  exists arr : ndarray Z,
    tartet_encoding drinkers "city" "weight" "Numeric"
      = Ok (arr, Single "city_target") /\ ncols arr = 1.
Proof.
  destruct (tartet_encoding_numeric (num := Z) drinkers "city" "weight"
              ["B"; "A"; "C"; "A"; "B"; "A"; "C"]
              ["70"; "82"; "64"; "91"; "58"; "77"; "69"])
    as (arr & Ha & Hn & _);
    [ reflexivity | reflexivity | reflexivity | reflexivity | ].
  exists arr. split; assumption.
Defined.

(** X13. When the target is passed as not Numeric but holds fractional
    numbers, on data the encoder accepts and can split into its five
    folds, the encoder infers a continuous target and is fitted with
    [classes_] set to [None]; [tartet_encoding] then raises [TypeError] on
    listing the classes. *)
Theorem tartet_encoding_fractional_labels {V num : Type} {cell : Cell V}
  {sklearn : Sklearn V num}
  (df : DataFrame V) (x_column target_column coltype : string) (X y : list V) :
  coltype <> "Numeric" ->
  values_reshape df x_column = Ok X ->
  target_values df target_column = Ok y ->
  te_fit_check None X y = true ->
  cross_fitting_check continuous X y = true ->
  existsb cell_fractional y = true ->
  tartet_encoding (num := num) df x_column target_column coltype
  = Err TypeError.
Proof.
  intros Hcol HX Hy Hfit Hcross Hfrac. unfold tartet_encoding. rewrite HX. cbn [bind].
  apply String.eqb_neq in Hcol. rewrite Hcol, Hy. cbn [bind].
  unfold TargetEncoder_fit_transform, type_of_target. cbv zeta.
  rewrite Hfit, Hfrac, Hcross. reflexivity.
Qed.

Lemma tartet_encoding_fractional_labels_witness :
  tartet_encoding (cell := tenths_cell) (sklearn := counting_sklearn_tenths)
                  readings "site" "level" "Categorical"
  = Err TypeError.
Proof.
  apply (tartet_encoding_fractional_labels
           (cell := tenths_cell) (sklearn := counting_sklearn_tenths)
           readings "site" "level" "Categorical"
           [10; 20; 10; 20; 10]%Z [15; 25; 15; 25; 15]%Z);
    [ discriminate | reflexivity | reflexivity | reflexivity | reflexivity
    | reflexivity ].
Defined.

(** ** Shapes of the encoded columns *)

Section ShapeFacts.
Context {V num : Type} {cell : Cell V} {sklearn : Sklearn V num}.

Lemma rectangular_map {A B : Type} (f : A -> B) (n : nat) (arr : ndarray A) :
  rectangular n arr -> rectangular n (array_map f arr).
Proof.
  unfold rectangular, array_map. cbn. intros [Hn Hrows]. split.
  - rewrite length_map. exact Hn.
  - apply Forall_forall. intros r Hr. apply in_map_iff in Hr.
    destruct Hr as (r0 & <- & Hr0). rewrite length_map.
    eapply Forall_forall in Hrows; eassumption.
Qed.

Lemma rectangular_rows {A B : Type} (f : A -> list B) (l : list A) (n w : nat) :
  List.length l = n ->
  (forall a, List.length (f a) = w) ->
  rectangular n {| ncols := w; rows := map f l |}.
Proof.
  intros Hl Hf. split; cbn.
  - rewrite length_map. exact Hl.
  - apply Forall_forall. intros r Hr. apply in_map_iff in Hr.
    destruct Hr as (a & <- & _). apply Hf.
Qed.

Lemma one_hot_encoding_Ok (df : DataFrame V) (x_column : string)
  (arr : ndarray Z) (names : list string) :
  one_hot_encoding df x_column = Ok (arr, names) ->
  exists X, values_reshape df x_column = Ok X /\
            ncols arr = List.length names /\
            rectangular (List.length X) arr.
Proof.
  unfold one_hot_encoding, OneHotEncoder_fit_transform. intros H.
  bind_inv H. exists v. split; [ reflexivity | ].
  destruct v as [| x0 X0] eqn:EX; [ discriminate H | ]. rewrite <- EX in *.
  cbn [bind] in H. injection H as <- <-. cbn [ncols].
  split; [ rewrite length_map; reflexivity | ].
  apply rectangular_rows; [ reflexivity | ]. intros a. apply length_map.
Qed.

Lemma ordinal_encoding_Ok (df : DataFrame V) (x_column : string)
  (arr : ndarray Z) (name : colname) :
  ordinal_encoding df x_column = Ok (arr, name) ->
  exists X, values_reshape df x_column = Ok X /\
            ncols arr = List.length (names_of name) /\
            rectangular (List.length X) arr.
Proof.
  unfold ordinal_encoding, OrdinalEncoder_fit_transform. intros H.
  bind_inv H. exists v. split; [ reflexivity | ].
  destruct v as [| x0 X0] eqn:EX; [ discriminate H | ]. rewrite <- EX in *.
  cbn [bind] in H. injection H as <- <-. cbn [ncols names_of List.length].
  split; [ reflexivity | ].
  apply rectangular_rows; reflexivity.
Qed.

Lemma TargetEncoder_fit_transform_Ok (tt : option target_type) (X y : list V)
  (encoder : TargetEncoder) (arr : ndarray num) :
  TargetEncoder_fit_transform tt X y = Ok (encoder, arr) ->
  rectangular (List.length X) arr /\
  target_type_ encoder = match tt with Some t => t | None => type_of_target y end /\
  match target_type_ encoder with
  | multiclass => classes_ encoder = Some (unique y) /\
                  ncols arr = List.length (unique y)
  | binary => classes_ encoder = Some (unique y) /\ ncols arr = 1
  | continuous => classes_ encoder = None /\ ncols arr = 1
  end.
Proof.
  unfold TargetEncoder_fit_transform. cbv zeta. intros H.
  destruct (te_fit_check tt X y && _)%bool; [ | discriminate H ].
  destruct (match tt with Some t => t | None => type_of_target y end);
    injection H as <- <-; cbn [target_type_ classes_ ncols];
    (split; [ | split; [ reflexivity | split; reflexivity ] ]);
    (apply rectangular_rows; [ apply length_seq | ]); intros a;
    try reflexivity.
  apply length_map.
Qed.

Lemma tartet_encoding_Ok (df : DataFrame V) (x_column target_column coltype : string)
  (arr : ndarray num) (name : colname) :
  tartet_encoding df x_column target_column coltype = Ok (arr, name) ->
  exists X, values_reshape df x_column = Ok X /\
            ncols arr = List.length (names_of name) /\
            rectangular (List.length X) arr.
Proof.
  unfold tartet_encoding. intros H. bind_inv H. exists v.
  split; [ reflexivity | ].
  destruct (String.eqb coltype "Numeric").
  - bind_inv H. bind_inv H. destruct v1 as [encoder encoded].
    injection H as <- <-.
    apply TargetEncoder_fit_transform_Ok in E1.
    destruct E1 as (Hrect & Ht & Hcols). rewrite Ht in Hcols.
    split; [ apply Hcols | exact Hrect ].
  - bind_inv H. bind_inv H. destruct v1 as [encoder encoded].
    apply TargetEncoder_fit_transform_Ok in E1.
    destruct E1 as (Hrect & _ & Hcols).
    destruct (target_type_ encoder).
    + destruct Hcols as [Hc _]. rewrite Hc in H. discriminate H.
    + injection H as <- <-. split; [ apply Hcols | exact Hrect ].
    + destruct Hcols as [Hc Hn]. rewrite Hc in H. injection H as <- <-.
      split; [ | exact Hrect ]. cbn [names_of]. rewrite length_map. exact Hn.
Qed.

Lemma create_encoded_column_Ok (encoding x_column : string) (df : DataFrame V)
  (target_column y_type : string) (arr : ndarray (feature V num)) (name : colname) :
  create_encoded_column encoding x_column df target_column y_type = Ok (arr, name) ->
  exists X, values_reshape df x_column = Ok X /\
            ncols arr = List.length (names_of name) /\
            rectangular (List.length X) arr.
Proof.
  unfold create_encoded_column. intros H.
  destruct (String.eqb encoding "One-Hot").
  { bind_inv H. destruct v as [a names]. injection H as <- <-.
    apply one_hot_encoding_Ok in E. destruct E as (X & HX & Hn & Hr).
    exists X. split; [ exact HX | ]. split; [ exact Hn | ].
    apply rectangular_map, Hr. }
  destruct (String.eqb encoding "Target").
  { bind_inv H. destruct v as [a nm]. injection H as <- <-.
    apply tartet_encoding_Ok in E. destruct E as (X & HX & Hn & Hr).
    exists X. split; [ exact HX | ]. split; [ exact Hn | ].
    apply rectangular_map, Hr. }
  destruct (String.eqb encoding "Ordinal"); [ | discriminate H ].
  bind_inv H. destruct v as [a nm]. injection H as <- <-.
  apply ordinal_encoding_Ok in E. destruct E as (X & HX & Hn & Hr).
  exists X. split; [ exact HX | ]. split; [ exact Hn | ].
  apply rectangular_map, Hr.
Qed.
End ShapeFacts.

(** X14. Whatever [create_encoded_column] returns fits together: the array
    has as many columns as the encoder gave names, one row per row of the
    source column, and all its rows have that many entries.  So the
    relabelling in [create_model_df] cannot fail on a length mismatch. *)
Theorem create_encoded_column_shape {V num : Type} {cell : Cell V}
  {sklearn : Sklearn V num}
  (encoding x_column : string) (df : DataFrame V) (target_column y_type : string)
  (encoded_column : ndarray (feature V num)) (name : colname) :
  create_encoded_column encoding x_column df target_column y_type
    = Ok (encoded_column, name) ->
  (exists X, values_reshape df x_column = Ok X /\
             rectangular (List.length X) encoded_column) /\
  ncols encoded_column = List.length (names_of name) /\
  exists frame, set_columns encoded_column (names_of name) = Ok frame /\
                columns frame = names_of name.
Proof.
  intros H. apply create_encoded_column_Ok in H.
  destruct H as (X & HX & Hn & Hr).
  split; [ exists X; split; assumption | ]. split; [ exact Hn | ].
  unfold set_columns. rewrite Hn, Nat.eqb_refl. eexists. split; [ reflexivity | ].
  apply columns_combine. rewrite length_map, length_seq. reflexivity.
Qed.

Lemma create_encoded_column_shape_witness :
  exists arr : ndarray (feature string Z),
    create_encoded_column "Target" "city" drinkers "drink" "Categorical"
      = Ok (arr, Multi ["city_target_beer"; "city_target_none"; "city_target_wine"]) /\
    ncols arr = 3.
Proof.
  eexists. split; [ vm_compute; reflexivity | ].
  refine (proj1 (proj2 (create_encoded_column_shape
                          (cell := string_cell) (sklearn := counting_sklearn)
                          "Target" "city" drinkers "drink" "Categorical" _
                          (Multi ["city_target_beer"; "city_target_none"; "city_target_wine"])
                          _))).
  vm_compute. reflexivity.
Defined.

(** ** Layout of the feature matrix *)

Lemma pd_concat_Ok {A : Type} (objs : list (Frame A)) (m : Frame A) :
  pd_concat objs = Ok m -> objs <> [] /\ m = List.concat objs.
Proof.
  destruct objs; cbn; [ discriminate | ].
  intros [= <-]. split; [ discriminate | reflexivity ].
Qed.

Lemma columns_app {A : Type} (a b : list (string * A)) :
  columns (a ++ b) = columns a ++ columns b.
Proof. apply map_app. Qed.

Lemma columns_concat {A : Type} (frames : list (list (string * A))) :
  columns (List.concat frames) = List.concat (map columns frames).
Proof. unfold columns. apply concat_map. Qed.

Lemma columns_drop_filter {A : Type} (label : string) (frame : Frame A) :
  columns (drop label frame)
  = filter (fun l => negb (String.eqb l label)) (columns frame).
Proof.
  unfold columns, drop. induction frame as [| [k a] frame IH]; cbn.
  - reflexivity.
  - destruct (String.eqb k label); cbn; [ | f_equal ]; exact IH.
Qed.



Lemma column_at_length {A : Type} (rs : list (list A)) (w j : nat) :
  Forall (fun r => List.length r = w) rs -> j < w ->
  List.length (column_at j rs) = List.length rs.
Proof.
  unfold column_at. induction 1 as [| r rs Hr _ IH]; intros Hj; cbn.
  - reflexivity.
  - rewrite length_app, (IH Hj).
    destruct (nth_error r j) eqn:E; [ reflexivity | ].
    apply nth_error_None in E. lia.
Qed.

Section LayoutFacts.
Context {V num : Type} {cell : Cell V} {sklearn : Sklearn V num}.


(** The first stage of [create_model_df]: the labels of the numeric
    columns. *)
Lemma numeric_stage (df : DataFrame V) (dtype_map : dict string) (numeric : list string) :
  comprehension_if
    (fun col1 =>
       d <- dtype_of df col1 ;;
       c <- dict_get dtype_map d ;;
       Ok (String.eqb c "Numeric"))
    (columns df) = Ok numeric ->
  NoDup (columns df) /\
  (forall col, In col numeric <->
               In col (columns df) /\ category_of df dtype_map col = Ok "Numeric") /\
  (exists keep, numeric = filter keep (columns df)).
Proof.
  intros H. pose proof (comprehension_if_filter _ _ _ H) as Hf.
  apply comprehension_if_Ok in H. destruct H as [Hall H].
  split; [ | split ].
  - apply dtype_of_all_NoDup. intros k Hk. destruct (Hall k Hk) as [b Hb].
    destruct (dtype_of df k) as [d | ]; [ eexists; reflexivity | discriminate Hb ].
  - intros col. rewrite H. unfold category_of.
    destruct (dtype_of df col) as [d | e]; cbn [bind];
      [ | split; intros [? Hp]; discriminate Hp ].
    destruct (dict_get dtype_map d) as [c | e]; cbn [bind];
      [ | split; intros [? Hp]; discriminate Hp ].
    split; intros [Hin Hp]; (split; [ exact Hin | ]).
    + injection Hp as Hp. apply String.eqb_eq in Hp. subst c. reflexivity.
    + injection Hp as ->. reflexivity.
  - eexists. exact Hf.
Qed.

(** The second stage: the numeric columns themselves. *)
Lemma passthrough_stage (df : DataFrame V) (numeric : list string)
  (series : list (Frame (feature V num))) :
  NoDup (columns df) ->
  (forall col, In col numeric -> In col (columns df)) ->
  comprehension (getitem_frame df) numeric = Ok series ->
  List.length series = List.length numeric /\
  List.concat series = map (fun col => (col, raw_column df col)) numeric.
Proof.
  intros Hnd. revert series. induction numeric as [| col numeric IH];
    intros series Hin H; cbn in H.
  - injection H as <-. split; reflexivity.
  - bind_inv H. bind_inv H. injection H as <-. cbn.
    destruct (IH v0) as [IHl IHc];
      [ intros c Hc; apply Hin; right; exact Hc | reflexivity | ].
    split; [ lia | ]. rewrite IHc. f_equal.
    assert (Hcol : In col (columns df)) by (apply Hin; left; reflexivity).
    apply in_map_iff in Hcol. destruct Hcol as ([k s] & Hk & Hks). cbn in Hk. subst k.
    unfold getitem_frame in E. rewrite (labelled_NoDup df col s Hnd Hks) in E.
    injection E as <-. cbn. unfold raw_column.
    rewrite (select_NoDup df col s Hnd Hks). reflexivity.
Qed.

(** The loop: one relabelled frame per request, appended in order. *)
Lemma encode_rows_Ok (res_df : list encoding_row) (df : DataFrame V)
  (target_var y_type : string) (model_df0 model_df : Frame (feature V num)) :
  encode_rows res_df df target_var y_type model_df0 = Ok model_df ->
  exists frames,
    Forall2 (encoded_as df target_var y_type) res_df frames /\
    model_df = model_df0 ++ List.concat frames.
Proof.
  revert model_df0. induction res_df as [| row rest IH]; intros model_df0 H; cbn in H.
  - injection H as <-. exists []. split; [ constructor | ].
    cbn. rewrite app_nil_r. reflexivity.
  - bind_inv H. destruct v as [encoded_col encoded_colname]. bind_inv H.
    cbn in H. destruct (IH _ H) as (frames & HF & ->).
    exists (v :: frames). split.
    + constructor; [ | exact HF ].
      exists encoded_col, encoded_colname. split; [ exact E | ].
      destruct encoded_colname; exact E0.
    + cbn. rewrite app_nil_r, <- app_assoc. reflexivity.
Qed.

Lemma encode_rows_unknown (res_df : list encoding_row) (df : DataFrame V)
  (target_var y_type : string) (model_df0 : Frame (feature V num)) (row : encoding_row) :
  In row res_df -> unknown_encoding (Encoding_of row) ->
  is_err (encode_rows res_df df target_var y_type model_df0).
Proof.
  intros Hin (H1 & H2 & H3). revert model_df0.
  induction res_df as [| r rest IH]; intros model_df0; [ destruct Hin | ].
  cbn. destruct Hin as [-> | Hin].
  - unfold create_encoded_column.
    apply String.eqb_neq in H1, H2, H3. rewrite H1, H2, H3.
    eexists; reflexivity.
  - destruct (create_encoded_column _ _ df target_var y_type) as [[a nm] | e];
      cbn [bind]; [ | eexists; reflexivity ].
    destruct (match nm with Single s => _ | Multi l => _ end) as [fr | e];
      cbn [bind]; [ | eexists; reflexivity ].
    apply IH, Hin.
Qed.
End LayoutFacts.





(** X17. A frame without any Numeric column makes [create_model_df] raise
    (the [ValueError] of [pd.concat] on an empty list), whatever encodings
    are requested. *)
Theorem create_model_df_no_numeric {V num : Type} {cell : Cell V}
  {sklearn : Sklearn V num}
  (res_df : list encoding_row) (df : DataFrame V)
  (target_var y_type : string) (dtype_map : dict string) :
  NoDup (columns df) ->
  covers dtype_map df ->
  (forall c, In c df -> dict_find dtype_map (dtype (snd c)) <> Some "Numeric") ->
  create_model_df (num := num) res_df df target_var y_type dtype_map
  = Err ValueError.
Proof.
  intros Hnd Hcov Hnone. unfold create_model_df.
  set (p := fun col1 : string =>
              d <- dtype_of df col1 ;;
              c <- dict_get dtype_map d ;;
              Ok (String.eqb c "Numeric")).
  assert (Hp : forall col, In col (columns df) -> p col = Ok false).
  { intros col Hcol. apply in_map_iff in Hcol.
    destruct Hcol as ([k s] & Hk & Hks). cbn in Hk. subst k.
    unfold p, dtype_of. rewrite (select_NoDup df col s Hnd Hks). cbn [bind].
    specialize (Hcov _ Hks). specialize (Hnone _ Hks). cbn in Hcov, Hnone.
    unfold dict_get. destruct (dict_find dtype_map (dtype s)) as [c | ];
      [ | congruence ].
    cbn [bind]. destruct (String.eqb c "Numeric") eqn:Ec; [ | reflexivity ].
    apply String.eqb_eq in Ec. congruence. }
  destruct (comprehension_if_all_Ok p (columns df)) as [numeric Hnum].
  { intros col Hcol. rewrite (Hp col Hcol). eexists; reflexivity. }
  rewrite Hnum. cbn [bind].
  pose proof (comprehension_if_Ok _ _ _ Hnum) as [_ Hin].
  destruct numeric as [| col numeric]; [ reflexivity | ].
  exfalso. destruct (proj1 (Hin col) (or_introl eq_refl)) as [Hcol Htrue].
  rewrite (Hp col Hcol) in Htrue. discriminate Htrue.
Qed.

Lemma create_model_df_no_numeric_witness :
  create_model_df (num := Z) city_one_hot
    [("city", {| dtype := "object"; values := ["B"; "A"; "C"] |})]
    "weight" "Numeric" dtype_map_inverse
  = Err ValueError.
Proof.
  apply create_model_df_no_numeric.
  - cbn. repeat constructor. intros [].
  - intros c [<- | []]. cbn. discriminate.
  - intros c [<- | []]. cbn. discriminate.
Defined.

(** X18. [create_model_df] never returns a feature matrix when some
    request names a strategy other than One-Hot, Target and Ordinal. *)
Theorem create_model_df_unknown_encoding {V num : Type} {cell : Cell V}
  {sklearn : Sklearn V num}
  (res_df : list encoding_row) (df : DataFrame V)
  (target_var y_type : string) (dtype_map : dict string) (row : encoding_row) :
  In row res_df ->
  unknown_encoding (Encoding_of row) ->
  is_err (create_model_df (num := num) res_df df target_var y_type dtype_map).
Proof.
  intros Hin Hunk. unfold create_model_df.
  destruct (comprehension_if _ (columns df)) as [numeric | e];
    cbn [bind]; [ | eexists; reflexivity ].
  destruct (comprehension (getitem_frame df) numeric) as [series | e];
    cbn [bind]; [ | eexists; reflexivity ].
  destruct (pd_concat series) as [model0 | e];
    cbn [bind]; [ | eexists; reflexivity ].
  destruct (encode_rows_unknown res_df df target_var y_type model0 row Hin Hunk)
    as [e ->].
  eexists; reflexivity.
Qed.

Lemma create_model_df_unknown_encoding_witness :
  create_model_df (num := Z)
    [{| Variable_of := "city"; Encoding_of := "Binary" |}]
    people "weight" "Numeric" dtype_map_inverse
  = Err UnboundLocalError.
Proof.
  destruct (create_model_df_unknown_encoding
              (cell := string_cell) (sklearn := counting_sklearn)
              [{| Variable_of := "city"; Encoding_of := "Binary" |}]
              people "weight" "Numeric" dtype_map_inverse
              {| Variable_of := "city"; Encoding_of := "Binary" |})
    as [e He].
  - left. reflexivity.
  - repeat split; discriminate.
  - vm_compute. reflexivity.
Defined.

(** ** Dates as timestamps *)

Lemma labelled_length {A B : Type} (df : list (string * A)) (df' : list (string * B))
  (k : string) :
  columns df' = columns df ->
  List.length (labelled k df') = List.length (labelled k df).
Proof.
  unfold columns, labelled. revert df'.
  induction df as [| [k0 a0] df IH]; intros [| [k1 a1] df'] H; cbn in *;
    try reflexivity; try discriminate.
  injection H as -> H. destruct (String.eqb k0 k); cbn; rewrite (IH df' H); reflexivity.
Qed.

Section TimestampFacts.
Context {V : Type} {pandas : Pandas V}.

Lemma timestamp_step_Ok (df df' : DataFrame V) (col : string) :
  timestamp_step df col = Ok df' ->
  exists s s', select df col = One s /\ timestamped s s' /\
               df' = setitem df col [s'].
Proof.
  unfold timestamp_step, timestamped, assign_astype_literal, dtype_of. intros H.
  destruct (select df col) as [| s | l] eqn:Es; cbn [bind] in H; try discriminate H.
  exists s. destruct (String.eqb (dtype s) "datetime64[ns]").
  - bind_inv H. injection H as <-. exists v. repeat split.
  - injection H as <-. exists s. repeat split.
    apply select_One_labelled in Es. destruct Es as [l Hl].
    clear - Hl. unfold labelled in Hl.
    induction df as [| [k0 s0] df IH]; cbn in *; [ reflexivity | ].
    destruct (String.eqb k0 col) eqn:E0.
    + injection Hl as -> -> Hl. f_equal.
      clear - Hl. induction df as [| [k1 s1] df IH]; cbn in *; [ reflexivity | ].
      destruct (String.eqb k1 col); [ discriminate Hl | ]. f_equal. exact (IH Hl).
    + f_equal. exact (IH Hl).
Qed.

Lemma timestamp_loop_columns (ks : list string) (df : DataFrame V) :
  columns (fst (timestamp_loop ks df)) = columns df.
Proof.
  revert df. induction ks as [| k ks IH]; intros df; cbn; [ reflexivity | ].
  destruct (timestamp_step df k) as [df' | e] eqn:Es; [ | reflexivity ].
  rewrite IH. apply timestamp_step_Ok in Es. destruct Es as (s & s' & _ & _ & ->).
  apply columns_setitem.
Qed.

(** A loop that returns found exactly one column under each label it
    iterated on. *)
Lemma timestamp_loop_single (ks : list string) (df df' : DataFrame V) (k : string) :
  timestamp_loop ks df = (df', Ok tt) -> In k ks ->
  List.length (labelled k df) = 1.
Proof.
  revert df. induction ks as [| k0 ks IH]; intros df H Hin; [ destruct Hin | ].
  cbn in H. destruct (timestamp_step df k0) as [df1 | e] eqn:Es; [ | discriminate H ].
  apply timestamp_step_Ok in Es. destruct Es as (s & s' & Hs & _ & ->).
  destruct Hin as [-> | Hin].
  - apply select_One_labelled in Hs. destruct Hs as [l ->]. reflexivity.
  - rewrite <- (IH _ H Hin). symmetry. apply labelled_length, columns_setitem.
Qed.

Lemma timestamp_loop_effect (ks : list string) (df df' : DataFrame V) :
  timestamp_loop ks df = (df', Ok tt) -> NoDup ks ->
  (forall k s, In k ks -> select df k = One s ->
               exists s', select df' k = One s' /\ timestamped s s') /\
  (forall k, ~ In k ks -> labelled k df' = labelled k df).
Proof.
  revert df. induction ks as [| k0 ks IH]; intros df H Hnd; cbn in H.
  - injection H as <-. split; [ intros k s [] | reflexivity ].
  - destruct (timestamp_step df k0) as [df1 | e] eqn:Es; [ | discriminate H ].
    inversion Hnd as [| ? ? Hk0 Hnd']; subst.
    apply timestamp_step_Ok in Es. destruct Es as (s0 & s0' & Hs0 & Ht0 & ->).
    destruct (IH _ H Hnd') as [IH1 IH2]. split.
    + intros k s [-> | Hin] Hs.
      * rewrite Hs in Hs0. injection Hs0 as <-. exists s0'. split; [ | exact Ht0 ].
        unfold select. rewrite (IH2 k Hk0). fold (select (setitem df k [s0']) k).
        apply (select_setitem_One df k s), Hs.
      * apply (IH1 k s Hin). rewrite <- Hs. apply select_labelled.
        apply labelled_setitem_other. intros ->. contradiction.
    + intros k Hk. rewrite IH2 by (intros Hin; apply Hk; right; exact Hin).
      apply labelled_setitem_other. intros ->. apply Hk. left. reflexivity.
Qed.
End TimestampFacts.

(** X19. [cast_date_to_timestamp] keeps the labels of the frame whether it
    returns or raises.  When it returns, the labels of the frame were
    distinct, every datetime column holds its [int64] conversion and every
    other column is as it was. *)
Theorem cast_date_to_timestamp_effect {V : Type} {pandas : Pandas V}
  (df : DataFrame V) :
  columns (fst (cast_date_to_timestamp df)) = columns df /\
  (snd (cast_date_to_timestamp df) = Ok tt ->
   NoDup (columns df) /\
   forall col s, In (col, s) df ->
                 exists s', select (fst (cast_date_to_timestamp df)) col = One s' /\
                            timestamped s s').
Proof.
  unfold cast_date_to_timestamp. split; [ apply timestamp_loop_columns | ].
  destruct (timestamp_loop (columns df) df) as [df' r] eqn:El. cbn [fst snd].
  intros ->.
  assert (Hnd : NoDup (columns df)).
  { apply labelled_le_one_NoDup. intros k Hk.
    rewrite (timestamp_loop_single (columns df) df df' k El Hk). lia. }
  split; [ exact Hnd | ].
  intros col s Hin.
  destruct (timestamp_loop_effect (columns df) df df' El Hnd) as [Heff _].
  apply (Heff col s).
  - apply in_map_iff. exists (col, s). split; [ reflexivity | exact Hin ].
  - apply select_NoDup; assumption.
Qed.

Lemma cast_date_to_timestamp_effect_witness :
  cast_date_to_timestamp events
  = ([("when", {| dtype := "int64"; values := ["1700000000"; "1700003600"] |});
      ("what", {| dtype := "object"; values := ["start"; "stop"] |})],
     Ok tt) /\
  select (fst (cast_date_to_timestamp events)) "what"
  = One {| dtype := "object"; values := ["start"; "stop"] |}.
Proof.
  split; [ vm_compute; reflexivity | ].
  destruct (cast_date_to_timestamp_effect events) as [_ H].
  destruct (H ltac:(vm_compute; reflexivity)) as [_ Heff].
  destruct (Heff "what" {| dtype := "object"; values := ["start"; "stop"] |})
    as (s' & Hs' & Ht); [ cbn; tauto | ].
  unfold timestamped in Ht. cbn in Ht. subst s'. exact Hs'.
Defined.

(** ** Selecting columns *)

(** X20. On a frame with distinct labels, [filter_data] with labels of the
    frame returns the columns so labelled, in the order asked for, each as
    it is in the frame; asked for all labels in frame order it returns the
    frame. *)
Theorem filter_data_selects {A : Type} (df : list (string * A)) (cols : list string) :
  NoDup (columns df) ->
  ((forall c, In c cols -> In c (columns df)) ->
   exists r, filter_data df cols = Ok r /\
             columns r = cols /\
             forall c, In c r -> In c df) /\
  filter_data df (columns df) = Ok df.
Proof.
  intros Hnd. unfold filter_data.
  assert (Hone : forall k a, In (k, a) df ->
                             match labelled k df with
                             | [] => Err KeyError
                             | cs => Ok cs
                             end = Ok [(k, a)]).
  { intros k a Hin. rewrite (labelled_NoDup df k a Hnd Hin). reflexivity. }
  split.
  - induction cols as [| c cols IH]; intros Hin; cbn.
    + exists []. repeat split. intros c [].
    + destruct IH as (r & Hr & Hc & Hsub);
        [ intros c' Hc'; apply Hin; right; exact Hc' | ].
      assert (Hcol : In c (columns df)) by (apply Hin; left; reflexivity).
      apply in_map_iff in Hcol. destruct Hcol as ([k a] & Hk & Hka). cbn in Hk. subst k.
      rewrite (Hone c a Hka). cbn [bind].
      destruct (comprehension _ cols) as [parts | e]; [ | discriminate Hr ].
      cbn in Hr. injection Hr as <-. cbn.
      eexists. split; [ reflexivity | ]. split.
      * cbn. f_equal. exact Hc.
      * intros c' [<- | Hc']; [ exact Hka | apply Hsub, Hc' ].
  - assert (Hgen : forall sub,
               (forall c, In c sub -> In c df) ->
               (parts <- comprehension
                           (fun col => match labelled col df with
                                       | [] => Err KeyError
                                       | cs => Ok cs
                                       end) (columns sub) ;;
                Ok (List.concat parts)) = Ok sub).
    { induction sub as [| [k a] sub IH]; intros Hsub; cbn; [ reflexivity | ].
      rewrite (Hone k a (Hsub _ (or_introl eq_refl))). cbn [bind].
      fold (columns sub).
      specialize (IH (fun c Hc => Hsub c (or_intror Hc))).
      destruct (comprehension _ (columns sub)) as [parts | e]; [ | discriminate IH ].
      cbn in IH. injection IH as IH. cbn. rewrite IH. reflexivity. }
    apply Hgen. intros c Hc. exact Hc.
Qed.

Lemma filter_data_selects_witness :
  filter_data people ["weight"; "age"]
  = Ok [("weight", {| dtype := "float64"; values := ["70"; "82"; "64"] |});
        ("age",    {| dtype := "int64";   values := ["30"; "41"; "25"] |})].
Proof.
  destruct (filter_data_selects people ["weight"; "age"] people_labels) as [H _].
  destruct H as (r & Hr & _); [ cbn; intros c [<- | [<- | []]]; tauto | ].
  vm_compute. reflexivity.
Defined.

(** X21. [filter_data] raises [KeyError] as soon as one of the labels asked
    for is not in the frame. *)
Theorem filter_data_missing {A : Type} (df : list (string * A)) (cols : list string)
  (c : string) :
  In c cols -> ~ In c (columns df) ->
  filter_data df cols = Err KeyError.
Proof.
  intros Hin Hc. unfold filter_data.
  destruct (comprehension _ cols) as [parts | e] eqn:E.
  - exfalso. apply comprehension_Ok in E.
    clear - E Hin Hc. induction E as [| col part cols parts Hcol _ IH];
      [ destruct Hin | ].
    destruct Hin as [-> | Hin]; [ | exact (IH Hin) ].
    rewrite (labelled_absent df c Hc) in Hcol. discriminate Hcol.
  - apply comprehension_Err in E. destruct E as (col & _ & Hcol).
    destruct (labelled col df); [ | discriminate Hcol ].
    injection Hcol as <-. reflexivity.
Qed.

Lemma filter_data_missing_witness :
  filter_data people ["age"; "height"] = Err KeyError.
Proof.
  apply (filter_data_missing people ["age"; "height"] "height").
  - cbn. tauto.
  - cbn. intros H. repeat (destruct H as [H | H]; [ discriminate H | ]). exact H.
Defined.

(** ** More on dimensionality reduction *)

Lemma rows_of_length {A : Type} (cols : list (list A)) :
  List.length (rows_of cols) = List.length (hd [] cols).
Proof. unfold rows_of. rewrite length_map, length_seq. reflexivity. Qed.

Section ReductionFacts.
Context {V num : Type} {sklearn : Sklearn V num}.

Lemma StandardScaler_fit_transform_Ok (X scaled : ndarray num) :
  StandardScaler_fit_transform X = Ok scaled ->
  0 < List.length (rows X) /\ 0 < ncols X /\
  ncols scaled = ncols X /\
  List.length (rows scaled) = List.length (rows X).
Proof.
  unfold StandardScaler_fit_transform.
  destruct (rows X) as [| r rs] eqn:Er; [ discriminate | ].
  destruct (ncols X) as [| w] eqn:Ew; [ discriminate | ].
  intros [= <-]. cbn. rewrite ?length_map.
  repeat split; lia.
Qed.

Lemma to_numpy_shape (df : Frame num) :
  ncols (to_numpy df) = List.length df /\
  List.length (rows (to_numpy df)) = frame_rows df.
Proof.
  unfold to_numpy, frame_rows. cbn. split; [ reflexivity | apply rows_of_length ].
Qed.
End ReductionFacts.

(** X22. Whenever [create_pca_after] returns, the feature matrix has at
    least one row and the requested count lies between 0 and the smaller of
    its numbers of rows and columns; the frame returned has that many
    columns, labelled PC1, PC2, ... in order, each with one score per
    row. *)
Theorem create_pca_after_returned {V num : Type} {sklearn : Sklearn V num}
  (df : Frame num) (n_comp : Z) (principal_df : Frame num) :
  create_pca_after df n_comp = Ok principal_df ->
  0 < frame_rows df /\
  (0 <= n_comp <= Z.of_nat (Nat.min (frame_rows df) (List.length df)))%Z /\
  columns principal_df = map PC_label (seq 0 (Z.to_nat n_comp)) /\
  forall c, In c principal_df -> List.length (snd c) = frame_rows df.
Proof.
  destruct (to_numpy_shape df) as [Hcols Hrows].
  unfold create_pca_after. intros H. bind_inv H. bind_inv H.
  apply StandardScaler_fit_transform_Ok in E.
  destruct E as (Hr & Hc & Hsc & Hsr).
  unfold PCA_fit_transform in E0. rewrite Hsc, Hsr, Hcols, Hrows in E0.
  rewrite Hrows in Hr.
  destruct (_ && _)%bool eqn:Eb in E0; [ | discriminate E0 ].
  apply andb_true_iff in Eb. destruct Eb as [E1 E2].
  apply Z.leb_le in E1, E2.
  split; [ exact Hr | ]. split; [ split; assumption | ].
  injection E0 as <-. unfold set_columns in H. cbn [ncols rows] in H.
  rewrite length_map, length_seq, Nat.eqb_refl in H. injection H as <-.
  split.
  - apply columns_combine. rewrite !length_map, !length_seq. reflexivity.
  - intros [lbl cells] Hin. apply in_combine_r in Hin. apply in_map_iff in Hin.
    destruct Hin as (j & <- & Hj). apply in_seq in Hj. cbn [snd].
    rewrite (column_at_length _ (Z.to_nat n_comp) j).
    + rewrite length_map, length_seq. reflexivity.
    + apply Forall_forall. intros row Hrow. apply in_map_iff in Hrow.
      destruct Hrow as (i & <- & _). rewrite length_map, length_seq. reflexivity.
    + lia.
Qed.

(** Two components of three features on two rows. *)
Lemma create_pca_after_returned_witness :
  exists principal_df,
    create_pca_after three_features 2 = Ok principal_df /\
    columns principal_df = ["PC1"; "PC2"] /\
    Forall (fun c => List.length (snd c) = 2) principal_df.
Proof.
  eexists. split; [ vm_compute; reflexivity | ].
  destruct (create_pca_after_returned (sklearn := counting_sklearn)
              three_features 2 _ eq_refl) as (_ & _ & Hc & Hr).
  split; [ exact Hc | ]. apply Forall_forall. exact Hr.
Defined.

Section CumsumFacts.
Context {num : Type} {dec : Decomposition num}.

Lemma cumsum_from_length (acc : num) (l : list num) :
  List.length (cumsum_from acc l) = List.length l.
Proof.
  revert acc. induction l as [| x l IH]; intros acc; cbn; [ reflexivity | ].
  rewrite IH. reflexivity.
Qed.

Lemma cumsum_length (l : list num) : List.length (cumsum l) = List.length l.
Proof.
  destruct l as [| x l]; cbn; [ reflexivity | ].
  rewrite cumsum_from_length. reflexivity.
Qed.

(** Each entry of [cumsum_from] is the one before it plus the term at its
    position. *)
Lemma cumsum_from_step (acc : num) (l : list num) (i : nat) (x : num) :
  nth_error l i = Some x ->
  nth_error (cumsum_from acc l) i
  = Some (num_add (match i with
                   | 0 => acc
                   | S j => nth j (cumsum_from acc l) acc
                   end) x).
Proof.
  revert acc i. induction l as [| y l IH]; intros acc i Hx.
  - destruct i; discriminate Hx.
  - destruct i as [| i]; cbn [nth_error cumsum_from] in *.
    + injection Hx as ->. reflexivity.
    + rewrite (IH _ _ Hx). destruct i as [| j]; [ reflexivity | ].
      cbn [nth]. f_equal. f_equal. apply nth_indep.
      rewrite cumsum_from_length.
      assert (Hj : S j < List.length l) by (apply nth_error_Some; congruence).
      lia.
Qed.

Lemma cumsum_step (l : list num) (i : nat) (x : num) :
  nth_error l (S i) = Some x ->
  exists c, nth_error (cumsum l) i = Some c /\
            nth_error (cumsum l) (S i) = Some (num_add c x).
Proof.
  destruct l as [| y l]; [ discriminate | ]. cbn [nth_error cumsum]. intros Hx.
  rewrite (cumsum_from_step y l i x Hx).
  destruct i as [| j].
  - exists y. split; reflexivity.
  - exists (nth j (cumsum_from y l) y). split; [ | reflexivity ].
    cbn [nth_error]. apply nth_error_nth'. rewrite cumsum_from_length.
    assert (Hj : nth_error l (S j) <> None) by congruence.
    apply nth_error_Some in Hj. lia.
Qed.
End CumsumFacts.

Section CumulativeFacts.
Context {num : Type} {dec : Decomposition num}.





End CumulativeFacts.




(** X23. Whenever [create_pca_before] returns a report, the feature matrix
    has at least one row and the report has one row per component, as many
    as the smaller of the matrix' numbers of rows and columns, numbered
    from 1; the cumulative column starts with the first ratio and each
    later entry is the entry before it plus the ratio of its component. *)
Theorem create_pca_before_report {V num : Type} {sklearn : Sklearn V num}
  {dec : Decomposition num} (df : Frame num) (variance_df : variance_df num) :
  create_pca_before df = Ok variance_df ->
  0 < frame_rows df /\
  let k := Nat.min (frame_rows df) (List.length df) in
  Number_of_Principal_Components variance_df = seq 1 k /\
  List.length (Explained_Variance_Ratio variance_df) = k /\
  List.length (Cumulative_Explained_Variance variance_df) = k /\
  nth_error (Cumulative_Explained_Variance variance_df) 0
  = nth_error (Explained_Variance_Ratio variance_df) 0 /\
  forall i ratio,
    nth_error (Explained_Variance_Ratio variance_df) (S i) = Some ratio ->
    exists before,
      nth_error (Cumulative_Explained_Variance variance_df) i = Some before /\
      nth_error (Cumulative_Explained_Variance variance_df) (S i)
      = Some (num_add before ratio).
Proof.
  destruct (to_numpy_shape df) as [Hcols Hrows].
  unfold create_pca_before. intros H. bind_inv H. injection H as <-.
  apply StandardScaler_fit_transform_Ok in E.
  destruct E as (Hr & _ & Hsc & Hsr). rewrite Hsc, Hsr, Hcols, Hrows.
  rewrite Hrows in Hr. split; [ exact Hr | ].
  cbn. rewrite cumsum_length, !length_map, !length_seq.
  repeat split.
  - destruct (map _ _); reflexivity.
  - intros i ratio Hi. apply cumsum_step, Hi.
Qed.

(** Two features on three rows: two components, numbered 1 and 2. *)
Lemma create_pca_before_report_witness :
  exists report,
    create_pca_before (sklearn := plain_sklearn) measures = Ok report /\
    Number_of_Principal_Components report = [1; 2] /\
    List.length (Cumulative_Explained_Variance report) = 2.
Proof.
  eexists. split; [ vm_compute; reflexivity | ].
  destruct (create_pca_before_report (sklearn := plain_sklearn) measures _ eq_refl)
    as (_ & Hn & _ & Hc & _).
  split; [ exact Hn | exact Hc ].
Defined.

(** ** The demo pipeline *)

Lemma Forall2_In_r {A B : Type} (R : A -> B -> Prop) (l : list A) (l' : list B) (b : B) :
  Forall2 R l l' -> In b l' -> exists a, In a l /\ R a b.
Proof.
  induction 1 as [| a0 b0 l l' Hab _ IH]; intros Hin; [ destruct Hin | ].
  destruct Hin as [<- | Hin].
  - exists a0. split; [ left; reflexivity | exact Hab ].
  - destruct (IH Hin) as (a & Ha & HR). exists a. split; [ right | ]; assumption.
Qed.

Section PipelineFacts.
Context {V num : Type} {cell : Cell V} {sklearn : Sklearn V num}.

Lemma find_valid_cols_In (df : DataFrame V) (target_var : string)
  (dtype_map : dict string) (valid_cols : list string) (col : string) :
  find_valid_cols df target_var dtype_map = Ok valid_cols ->
  In col valid_cols ->
  In col (columns df) /\
  category_of df dtype_map col = Ok "Categorical" /\
  str_in col target_var = false.
Proof.
  unfold find_valid_cols, category_of. intros H Hin.
  apply comprehension_if_Ok in H. destruct H as [_ H].
  apply H in Hin. destruct Hin as [Hin Hp]. split; [ exact Hin | ].
  destruct (dtype_of df col) as [d | ]; cbn [bind] in *; [ | discriminate Hp ].
  destruct (dict_get dtype_map d) as [c | ]; cbn [bind] in *; [ | discriminate Hp ].
  injection Hp as Hp. apply andb_true_iff in Hp. destruct Hp as [Hc Hs].
  apply String.eqb_eq in Hc. subst c.
  split; [ reflexivity | ]. destruct (str_in col target_var); [ discriminate Hs | reflexivity ].
Qed.

(** The labels a one-hot request contributes. *)
Lemma one_hot_frame_labels (df : DataFrame V) (target_var y_type col : string)
  (frame : Frame (feature V num)) (l : string) :
  encoded_as df target_var y_type
             {| Variable_of := col; Encoding_of := "One-Hot" |} frame ->
  In l (columns frame) ->
  exists X cat, values_reshape df col = Ok X /\ In cat X /\
                l = (col ++ "_one_hot_" ++ cell_str cat)%string.
Proof.
  intros (arr & nm & Henc & Hset) Hl. cbn in Henc.
  unfold create_encoded_column in Henc. cbn in Henc.
  bind_inv Henc. destruct v as [a names]. injection Henc as <- <-.
  unfold one_hot_encoding, OneHotEncoder_fit_transform in E.
  bind_inv E. rename v into X. exists X.
  destruct X as [| x0 X0] eqn:EX; [ discriminate E | ]. rewrite <- EX in *.
  cbn [bind] in E. injection E as <- <-.
  unfold set_columns in Hset. cbn [names_of ncols array_map] in Hset.
  destruct (Nat.eqb _ _) eqn:En; [ | discriminate Hset ]. injection Hset as <-.
  apply Nat.eqb_eq in En.
  rewrite columns_combine in Hl by (rewrite !length_map, length_seq; reflexivity).
  apply in_map_iff in Hl. destruct Hl as (cat & <- & Hcat).
  exists cat. split; [ reflexivity | ]. split; [ | reflexivity ].
  apply unique_In. destruct (unique X); [ destruct Hcat | right; exact Hcat ].
Qed.
End PipelineFacts.

(** X24. The matrix [load_data] builds from the frame it read has no
    column labelled "weight"; each of its columns is a Numeric column of
    the data or a one-hot indicator [<col>_one_hot_<value>] of an observed
    value of a Categorical column whose name does not occur in "weight". *)
Theorem load_data_columns {V num : Type} {cell : Cell V} {sklearn : Sklearn V num}
  (read_csv : string -> result (DataFrame V)) (df : DataFrame V)
  (model_df : Frame (feature V num)) :
  read_csv drinking_csv = Ok df ->
  load_data read_csv = Ok model_df ->
  ~ In "weight" (columns model_df) /\
  forall l, In l (columns model_df) ->
    (In l (columns df) /\ category_of df dtype_map_inverse l = Ok "Numeric") \/
    (exists col X cat,
        category_of df dtype_map_inverse col = Ok "Categorical" /\
        ~ substring_of col "weight" /\
        values_reshape df col = Ok X /\ In cat X /\
        l = (col ++ "_one_hot_" ++ cell_str cat)%string).
Proof.
  intros Hread H. unfold load_data in H. rewrite Hread in H. cbn [bind] in H.
  bind_inv H. rename v into valid_cols. bind_inv H. rename v into y_type.
  unfold create_model_df in H.
  bind_inv H. rename v into numeric. bind_inv H. bind_inv H. bind_inv H.
  apply numeric_stage in E1. destruct E1 as (Hnd & Hnum & _).
  apply passthrough_stage in E2;
    [ | exact Hnd | intros col Hc; apply Hnum in Hc; tauto ].
  destruct E2 as [_ Hpass].
  apply pd_concat_Ok in E3. destruct E3 as [_ ->]. rewrite Hpass in E4.
  apply encode_rows_Ok in E4. destruct E4 as (frames & HF & ->).
  set (full := map (fun col => (col, raw_column df col)) numeric ++ List.concat frames) in *.
  assert (Hfull : forall l, In l (columns full) ->
            (In l (columns df) /\ category_of df dtype_map_inverse l = Ok "Numeric") \/
            (exists col X cat,
                category_of df dtype_map_inverse col = Ok "Categorical" /\
                ~ substring_of col "weight" /\
                values_reshape df col = Ok X /\ In cat X /\
                l = (col ++ "_one_hot_" ++ cell_str cat)%string)).
  { intros l Hl. unfold full in Hl. rewrite columns_app in Hl.
    apply in_app_or in Hl. destruct Hl as [Hl | Hl].
    - left. apply Hnum. unfold columns in Hl. rewrite map_map in Hl. cbn in Hl.
      rewrite map_id in Hl. exact Hl.
    - right. rewrite columns_concat in Hl. apply in_concat in Hl.
      destruct Hl as (ls & Hls & Hl). apply in_map_iff in Hls.
      destruct Hls as (fr & <- & Hfr).
      destruct (Forall2_In_r _ _ _ _ HF Hfr) as (row & Hrow & Henc).
      apply in_map_iff in Hrow. destruct Hrow as (col & <- & Hcol).
      destruct (find_valid_cols_In _ _ _ _ _ E Hcol) as (_ & Hcat & Hsub).
      destruct (one_hot_frame_labels _ _ _ _ _ _ Henc Hl) as (X & cat & HX & Hcat' & ->).
      exists col, X, cat. split; [ exact Hcat | ]. split; [ | auto ].
      rewrite <- str_in_spec, Hsub. discriminate. }
  destruct (existsb (String.eqb "weight") (columns full)) eqn:Ex; injection H as <-.
  - split; [ apply columns_drop | ].
    intros l Hl. apply Hfull. rewrite columns_drop_filter in Hl.
    apply filter_In in Hl. apply Hl.
  - split; [ | exact Hfull ].
    intros Hin. apply Bool.not_true_iff_false in Ex. apply Ex.
    apply existsb_exists. exists "weight". split; [ exact Hin | reflexivity ].
Qed.

Lemma load_data_columns_witness :
  exists model_df : Frame (feature string Z),
    load_data (fun _ => Ok people) = Ok model_df /\
    columns model_df = ["age"; "city_one_hot_B"; "city_one_hot_C"] /\
    ~ In "weight" (columns model_df).
Proof.
  eexists. split; [ vm_compute; reflexivity | ]. split; [ reflexivity | ].
  apply (load_data_columns (cell := string_cell) (sklearn := counting_sklearn)
           (fun _ => Ok people) people _ eq_refl).
  vm_compute. reflexivity.
Defined.

(** X25. [load_data] raises on data without a "weight" column. *)
Theorem load_data_requires_weight {V num : Type} {cell : Cell V}
  {sklearn : Sklearn V num}
  (read_csv : string -> result (DataFrame V)) (df : DataFrame V) :
  read_csv drinking_csv = Ok df ->
  ~ In "weight" (columns df) ->
  is_err (load_data (num := num) read_csv).
Proof.
  intros Hread Hw. unfold load_data. rewrite Hread. cbn [bind].
  destruct (find_valid_cols df "weight" dtype_map_inverse);
    cbn [bind]; [ | eexists; reflexivity ].
  unfold find_label_type, dtype_of, select.
  rewrite (labelled_absent df "weight" Hw). eexists; reflexivity.
Qed.

Lemma load_data_requires_weight_witness :
  load_data (num := Z)
    (fun _ => Ok [("age", {| dtype := "int64"; values := ["30"; "41"] |})])
  = Err KeyError.
Proof.
  destruct (load_data_requires_weight
              (cell := string_cell) (sklearn := counting_sklearn)
              (fun _ => Ok [("age", {| dtype := "int64"; values := ["30"; "41"] |})])
              [("age", {| dtype := "int64"; values := ["30"; "41"] |})] eq_refl)
    as [e He].
  - cbn. intros [H | []]. discriminate H.
  - vm_compute. reflexivity.
Defined.

(** ** Where the unbound-variable error can come from *)

Lemma bound_bind {A B : Type} (r : result A) (k : A -> result B) :
  bound r -> (forall a, r = Ok a -> bound (k a)) -> bound (bind r k).
Proof.
  unfold bound. intros Hr Hk. destruct r as [a | e]; cbn.
  - apply Hk. reflexivity.
  - intros [= ->]. apply Hr. reflexivity.
Qed.

Lemma bound_Ok {A : Type} (a : A) : bound (Ok a).
Proof. unfold bound. discriminate. Qed.

Lemma bound_dict_get {B : Type} (d : dict B) (k : string) : bound (dict_get d k).
Proof. unfold bound, dict_get. destruct (dict_find d k); discriminate. Qed.

Lemma bound_dtype_of {V : Type} (df : DataFrame V) (k : string) : bound (dtype_of df k).
Proof. unfold bound, dtype_of. destruct (select df k); discriminate. Qed.

Lemma bound_comprehension {A B : Type} (f : A -> result B) (l : list A) :
  (forall a, bound (f a)) -> bound (comprehension f l).
Proof.
  intros Hf. induction l as [| a l IH]; cbn; [ apply bound_Ok | ].
  apply bound_bind; [ apply Hf | intros b _ ].
  apply bound_bind; [ exact IH | intros bs _; apply bound_Ok ].
Qed.

Lemma bound_comprehension_if {A : Type} (p : A -> result bool) (l : list A) :
  (forall a, bound (p a)) -> bound (comprehension_if p l).
Proof.
  intros Hp. induction l as [| a l IH]; cbn; [ apply bound_Ok | ].
  apply bound_bind; [ apply Hp | intros b _ ].
  apply bound_bind; [ exact IH | intros bs _; apply bound_Ok ].
Qed.

Lemma bound_set_columns {A : Type} (arr : ndarray A) (names : list string) :
  bound (set_columns arr names).
Proof. unfold bound, set_columns. destruct (Nat.eqb _ _); discriminate. Qed.

Lemma bound_pd_concat {A : Type} (objs : list (Frame A)) : bound (pd_concat objs).
Proof. unfold bound, pd_concat. destruct objs; discriminate. Qed.

Section BoundFacts.
Context {V num : Type} {cell : Cell V} {sklearn : Sklearn V num}.

Lemma bound_values_reshape (df : DataFrame V) (k : string) :
  bound (values_reshape df k).
Proof. unfold bound, values_reshape. destruct (select df k); discriminate. Qed.

Lemma bound_target_values (df : DataFrame V) (k : string) :
  bound (target_values df k).
Proof. unfold bound, target_values. destruct (select df k); discriminate. Qed.

Lemma bound_one_hot_encoding (df : DataFrame V) (x_column : string) :
  bound (one_hot_encoding df x_column).
Proof.
  unfold one_hot_encoding. apply bound_bind; [ apply bound_values_reshape | ].
  intros X _. unfold OneHotEncoder_fit_transform.
  destruct X; cbn; [ discriminate | apply bound_Ok ].
Qed.

Lemma bound_ordinal_encoding (df : DataFrame V) (x_column : string) :
  bound (ordinal_encoding df x_column).
Proof.
  unfold ordinal_encoding. apply bound_bind; [ apply bound_values_reshape | ].
  intros X _. unfold OrdinalEncoder_fit_transform.
  destruct X; cbn; [ discriminate | apply bound_Ok ].
Qed.

Lemma bound_TargetEncoder (tt : option target_type) (X y : list V) :
  bound (TargetEncoder_fit_transform (num := num) tt X y).
Proof.
  unfold bound, TargetEncoder_fit_transform. cbv zeta.
  destruct (te_fit_check tt X y && _)%bool; [ | discriminate ].
  destruct (match tt with Some t => t | None => type_of_target y end); discriminate.
Qed.

Lemma bound_tartet_encoding (df : DataFrame V) (x_column target_column coltype : string) :
  bound (tartet_encoding (num := num) df x_column target_column coltype).
Proof.
  unfold tartet_encoding. apply bound_bind; [ apply bound_values_reshape | ].
  intros X _. destruct (String.eqb coltype "Numeric").
  - apply bound_bind; [ apply bound_target_values | intros y _ ].
    apply bound_bind; [ apply bound_TargetEncoder | intros [enc arr] _ ].
    apply bound_Ok.
  - apply bound_bind; [ apply bound_target_values | intros y _ ].
    apply bound_bind; [ apply bound_TargetEncoder | intros [enc arr] _ ].
    destruct (target_type_ enc); try apply bound_Ok;
      destruct (classes_ enc); try apply bound_Ok; discriminate.
Qed.

Lemma create_encoded_column_unbound (encoding x_column : string) (df : DataFrame V)
  (target_column y_type : string) :
  create_encoded_column (num := num) encoding x_column df target_column y_type
    = Err UnboundLocalError ->
  unknown_encoding encoding.
Proof.
  unfold create_encoded_column, unknown_encoding. intros H.
  destruct (String.eqb encoding "One-Hot") eqn:E1.
  { exfalso. revert H. apply bound_bind; [ apply bound_one_hot_encoding | ].
    intros [a n] _. apply bound_Ok. }
  destruct (String.eqb encoding "Target") eqn:E2.
  { exfalso. revert H. apply bound_bind; [ apply bound_tartet_encoding | ].
    intros [a n] _. apply bound_Ok. }
  destruct (String.eqb encoding "Ordinal") eqn:E3.
  { exfalso. revert H. apply bound_bind; [ apply bound_ordinal_encoding | ].
    intros [a n] _. apply bound_Ok. }
  apply String.eqb_neq in E1, E2, E3. tauto.
Qed.

Lemma encode_rows_unbound (res_df : list encoding_row) (df : DataFrame V)
  (target_var y_type : string) (model_df0 : Frame (feature V num)) :
  encode_rows res_df df target_var y_type model_df0 = Err UnboundLocalError ->
  exists row, In row res_df /\ unknown_encoding (Encoding_of row).
Proof.
  revert model_df0. induction res_df as [| row rest IH]; intros model_df0 H;
    cbn in H; [ discriminate H | ].
  destruct (create_encoded_column (Encoding_of row) (Variable_of row) df
              target_var y_type) as [[arr nm] | e] eqn:Ec; cbn [bind] in H.
  - destruct (match nm with Single s => _ | Multi l => _ end) as [fr | e] eqn:Es;
      cbn [bind] in H.
    + cbn in H. destruct (IH _ H) as (r & Hr & Hu).
      exists r. split; [ right; exact Hr | exact Hu ].
    + exfalso. injection H as ->.
      destruct nm; exact (bound_set_columns _ _ Es).
  - injection H as ->. exists row. split; [ left; reflexivity | ].
    eapply create_encoded_column_unbound, Ec.
Qed.
End BoundFacts.

(** X26. [create_model_df] raises [UnboundLocalError] only when some
    request names a strategy other than One-Hot, Target and Ordinal. *)
Theorem create_model_df_unbound {V num : Type} {cell : Cell V}
  {sklearn : Sklearn V num}
  (res_df : list encoding_row) (df : DataFrame V)
  (target_var y_type : string) (dtype_map : dict string) :
  create_model_df (num := num) res_df df target_var y_type dtype_map
    = Err UnboundLocalError ->
  exists row, In row res_df /\ unknown_encoding (Encoding_of row).
Proof.
  unfold create_model_df. intros H.
  destruct (comprehension_if _ (columns df)) as [numeric | e] eqn:E1; cbn [bind] in H.
  2: { exfalso. injection H as ->. revert E1. apply bound_comprehension_if.
       intros col. apply bound_bind; [ apply bound_dtype_of | intros d _ ].
       apply bound_bind; [ apply bound_dict_get | intros c _; apply bound_Ok ]. }
  destruct (comprehension (getitem_frame df) numeric) as [series | e] eqn:E2;
    cbn [bind] in H.
  2: { exfalso. injection H as ->. revert E2. apply bound_comprehension.
       intros col. unfold bound, getitem_frame. destruct (labelled col df); discriminate. }
  destruct (pd_concat series) as [model0 | e] eqn:E3; cbn [bind] in H.
  2: { exfalso. injection H as ->. exact (bound_pd_concat _ E3). }
  destruct (encode_rows res_df df target_var y_type model0) as [m | e] eqn:E4;
    cbn [bind] in H.
  - destruct (existsb _ _); discriminate H.
  - injection H as ->. eapply encode_rows_unbound, E4.
Qed.

Lemma create_model_df_unbound_witness :
  exists row,
    In row [{| Variable_of := "city"; Encoding_of := "Binary" |}] /\
    unknown_encoding (Encoding_of row).
Proof.
  apply (create_model_df_unbound (cell := string_cell) (sklearn := counting_sklearn)
           [{| Variable_of := "city"; Encoding_of := "Binary" |}]
           people "weight" "Numeric" dtype_map_inverse).
  vm_compute. reflexivity.
Defined.
